(** * Chunking, page-wise translation and map-reduce summarisation

    A shallow embedding of [app_advanced.py]: the token-bounded chunker
    [split_text_into_chunks], the page-by-page translator
    [translate_page_by_page] and the two-phase summariser [summarize_text],
    with the properties their specification states about them.

    Python values are modelled as follows.
    - [str] is a list of Unicode code points, so that [len], slicing and
      [split] count characters the way Python does.
    - [int] is [Z]; a token count is a [nat] (it is the [len] of a list).
    - [float] is IEEE binary64, computed with the Standard Library's
      [SpecFloat] operations at precision 53 and exponent bound 1024.
    - An exception is a value of [exn]; a call that may raise, or that may
      loop, returns an [outcome].
    - The tokenizer and the chat backend are the two external collaborators;
      they are interfaces ([Tokenizer], [Backend]) the functions are
      parameterised by.
    - Streamlit widgets and backend requests are recorded, in order, in a
      trace of [event]s threaded through the stateful functions. *)

From Stdlib Require Import List ZArith NArith Lia Bool Ascii String QArith.
From Stdlib Require Import Floats.SpecFloat.
Import ListNotations.
Local Open Scope Z_scope.

Set Implicit Arguments.

(** ** Python strings *)

Definition char := N.
Definition str := list char.

Module Utf8.

(** Source literals are written as UTF-8 in this file and decoded to the
    code points Python sees. *)
Definition cont (b : N) : N := N.land b 63.

Fixpoint decode (bs : list N) : str :=
  match bs with
  | [] => []
  | b :: rest =>
      if (b <? 128)%N then b :: decode rest
      else if (b <? 224)%N then
        match rest with
        | b1 :: rest1 =>
            (N.shiftl (N.land b 31) 6 + cont b1)%N :: decode rest1
        | _ => [b]
        end
      else if (b <? 240)%N then
        match rest with
        | b1 :: b2 :: rest2 =>
            (N.shiftl (N.land b 15) 12 + N.shiftl (cont b1) 6 + cont b2)%N
              :: decode rest2
        | _ => [b]
        end
      else
        match rest with
        | b1 :: b2 :: b3 :: rest3 =>
            (N.shiftl (N.land b 7) 18 + N.shiftl (cont b1) 12
             + N.shiftl (cont b2) 6 + cont b3)%N :: decode rest3
        | _ => [b]
        end
  end.

Definition lit (s : string) : str :=
  decode (map N_of_ascii (list_ascii_of_string s)).

(** Number of bytes of the UTF-8 encoding of one code point. *)
Definition width (c : char) : nat :=
  if (c <? 128)%N then 1%nat
  else if (c <? 2048)%N then 2%nat
  else if (c <? 65536)%N then 3%nat
  else 4%nat.

End Utf8.

(** [py "..."] is the Python string written as that literal. *)
Definition py (s : string) : str := Utf8.lit s.
Arguments py s%_string.

Definition newline : char := 10%N.

(** [len(s)] *)
Definition len (s : str) : Z := Z.of_nat (List.length s).

(** [bool(s)]: a string is true when it is not empty. *)
Definition truthy (s : str) : bool :=
  match s with [] => false | _ => true end.

(** [s.split('\n')]: always at least one field. *)
Fixpoint split_lines (s : str) : list str :=
  match s with
  | [] => [[]]
  | c :: s' =>
      if (c =? newline)%N then [] :: split_lines s'
      else match split_lines s' with
           | [] => [[c]]
           | l :: ls => (c :: l) :: ls
           end
  end.

(** [sep.join(parts)] *)
Fixpoint join (sep : str) (parts : list str) : str :=
  match parts with
  | [] => []
  | [p] => p
  | p :: ps => p ++ sep ++ join sep ps
  end.

(** Slice bounds: a negative bound counts from the end, and both ends are
    clipped into [0, len]. *)
Definition slice_index (n : nat) (k : Z) : nat :=
  if k <? 0 then Z.to_nat (Z.of_nat n + k) else Nat.min (Z.to_nat k) n.

(** [s[:k]] *)
Definition slice_to (k : Z) (s : str) : str := firstn (slice_index (List.length s) k) s.

(** [s[k:]] *)
Definition slice_from (k : Z) (s : str) : str := skipn (slice_index (List.length s) k) s.

(** [str.isspace] on one code point. *)
Definition is_space (c : char) : bool :=
  ((9 <=? c) && (c <=? 13) || (28 <=? c) && (c <=? 32)
   || (c =? 133) || (c =? 160) || (c =? 5760)
   || (8192 <=? c) && (c <=? 8202)
   || (c =? 8232) || (c =? 8233) || (c =? 8239) || (c =? 8287)
   || (c =? 12288))%N.

Fixpoint lstrip (s : str) : str :=
  match s with
  | [] => []
  | c :: s' => if is_space c then lstrip s' else s
  end.

(** [s.strip()] *)
Definition strip (s : str) : str := rev (lstrip (rev (lstrip s))).

(** [str(n)] for a non-negative integer. *)
Definition digit (d : nat) : char := (48 + N.of_nat d)%N.

Fixpoint digits (fuel n : nat) (acc : str) : str :=
  match fuel with
  | O => acc
  | S fuel' =>
      let acc' := digit (n mod 10) :: acc in
      if (n <? 10)%nat then acc' else digits fuel' (n / 10) acc'
  end.

Definition str_of_nat (n : nat) : str := digits (S n) n [].

(** ** Exceptions and outcomes *)

Inductive exn :=
| ZeroDivisionError (msg : str)
| OverflowError (msg : str)
| ValueError (msg : str)
| TypeError (msg : str)
| BackendError (msg : str).

(** [str(e)] *)
Definition exn_str (e : exn) : str :=
  match e with
  | ZeroDivisionError m | OverflowError m | ValueError m | TypeError m
  | BackendError m => m
  end.

(** What running a piece of code gives: a value, a raised exception, or no
    answer within the iteration bound given to its [while] loop. *)
Inductive outcome (A : Type) :=
| Ret (a : A)
| Raise (e : exn)
| Timeout.
Arguments Raise {A} e.
Arguments Timeout {A}.

Definition obind {A B} (o : outcome A) (k : A -> outcome B) : outcome B :=
  match o with
  | Ret a => k a
  | Raise e => Raise e
  | Timeout => Timeout
  end.

(** ** Floating point *)

Module Float.

Definition prec := 53.
Definition emax := 1024.

(** [float(z)], correctly rounded. *)
Definition of_int (z : Z) : outcome spec_float :=
  match binary_normalize prec emax z 0 false with
  | S754_infinity _ => Raise (OverflowError (py "int too large to convert to float"))
  | x => Ret x
  end.

Definition operand (z : Z) : spec_float :=
  match z with
  | Z0 => S754_zero false
  | Zpos p => S754_finite false p 0
  | Zneg p => S754_finite true p 0
  end.

(** [a / b] on two integers: the correctly rounded quotient. *)
Definition truediv (a b : Z) : outcome spec_float :=
  if b =? 0 then Raise (ZeroDivisionError (py "division by zero"))
  else match SFdiv prec emax (operand a) (operand b) with
       | S754_infinity _ =>
           Raise (OverflowError (py "integer division result too large for a float"))
       | x => Ret x
       end.

(** [n * x] with [n] an integer and [x] a float. *)
Definition int_mul (n : Z) (x : spec_float) : outcome spec_float :=
  obind (of_int n) (fun nf => Ret (SFmul prec emax nf x)).

(** [int(x)]: truncation towards zero. *)
Definition to_int (x : spec_float) : outcome Z :=
  match x with
  | S754_zero _ => Ret 0
  | S754_finite s m e =>
      let a := match e with
               | Zneg k => Z.shiftr (Zpos m) (Zpos k)
               | _ => Z.shiftl (Zpos m) e
               end in
      Ret (if s then - a else a)
  | S754_infinity _ =>
      Raise (OverflowError (py "cannot convert float infinity to integer"))
  | S754_nan => Raise (ValueError (py "cannot convert float NaN to integer"))
  end.

End Float.

(** ** The tokenizer *)

(** [get_token_count(text, model)]: the number of tokens the tokenizer
    registered for [model] (or the default one) cuts [text] into.  The
    tokenizer is an external library; the chunker only sees this count. *)
Class Tokenizer := { get_token_count : str -> str -> nat }.

(** A byte-level tokenizer: one token per byte of the UTF-8 encoding, which
    is what a byte-pair encoding produces on text none of its merges apply
    to. *)
Definition byte_count (text : str) : nat :=
  fold_right (fun c n => (Utf8.width c + n)%nat) 0%nat text.

Definition byte_tokenizer : Tokenizer := {| get_token_count := fun text _ => byte_count text |}.

(** A tokenizer with one token per character. *)
Definition char_tokenizer : Tokenizer :=
  {| get_token_count := fun text _ => List.length text |}.

(** A tokenizer may count fewer tokens for a text than for an initial part
    of it: here the text ["a\nb\nc\n"] is one token, and any other text
    counts one token per byte. *)
Definition one_word_tokenizer : Tokenizer :=
  {| get_token_count := fun text _ =>
       if list_eq_dec N.eq_dec text [97; 10; 98; 10; 99; 10]%N
       then 1%nat else byte_count text |}.

(** ** The chunker *)

Section Chunker.

Context {tok : Tokenizer}.
Variable model : str.
Variable max_tokens : Z.

Definition count (s : str) : Z := Z.of_nat (get_token_count s model).

(** [int(len(sentence) * (max_tokens / get_token_count(sentence, model)))] *)
Definition cut_off_point (sentence : str) : outcome Z :=
  obind (Float.truediv max_tokens (count sentence)) (fun ratio =>
  obind (Float.int_mul (len sentence) ratio) Float.to_int).

(** The [while] loop that cuts an oversized line, run for at most [fuel]
    iterations; it returns the chunk list and what is left of the line. *)
Fixpoint force_split (fuel : nat) (sentence : str) (chunks : list str)
  : outcome (list str * str) :=
  if max_tokens <? count sentence then
    match fuel with
    | O => Timeout
    | S fuel' =>
        obind (cut_off_point sentence) (fun cut =>
        force_split fuel' (slice_from cut sentence) (chunks ++ [slice_to cut sentence]))
    end
  else Ret (chunks, sentence).

(** [if current_chunk: chunks.append(current_chunk)] *)
Definition flush (chunks : list str) (current_chunk : str) : list str :=
  if truthy current_chunk then chunks ++ [current_chunk] else chunks.

(** The [for] loop over the lines, from the state [(chunks, current_chunk)]. *)
Fixpoint accumulate (fuel : nat) (sentences : list str) (chunks : list str)
  (current_chunk : str) : outcome (list str * str) :=
  match sentences with
  | [] => Ret (chunks, current_chunk)
  | sentence :: rest =>
      if count (current_chunk ++ sentence ++ [newline]) <=? max_tokens then
        accumulate fuel rest chunks (current_chunk ++ sentence ++ [newline])
      else
        obind (force_split fuel sentence (flush chunks current_chunk))
          (fun '(chunks', sentence') =>
             accumulate fuel rest chunks' (sentence' ++ [newline]))
  end.

Definition split_text_into_chunks (fuel : nat) (text : str) : outcome (list str) :=
  obind (accumulate fuel (split_lines text) [] [])
    (fun '(chunks, current_chunk) => Ret (flush chunks current_chunk)).

End Chunker.

(** ** The backend and the observable trace *)

(** One [client.chat.completions.create] request. *)
Record request := {
  req_model : str;
  req_messages : list (str * str);   (* role, content *)
  req_temperature : Q
}.

(** The backend either answers or raises.  Of an answer the application
    reads [choices[0].message.content], which is a text or [None]. *)
Inductive response :=
| Reply (content : str)
| Failure (e : exn)
| NoContent.

(** [res.choices[0].message.content] *)
Definition content_of (resp : response) : outcome (option str) :=
  match resp with
  | Reply content => Ret (Some content)
  | NoContent => Ret None
  | Failure e => Raise e
  end.

(** The backend is free to answer a request differently each time: its
    answer depends on the requests it has received before. *)
Class Backend := { chat_completions_create : list request -> request -> response }.

Inductive event :=
| ProgressBar (value : Q) (text : str)   (* st.progress(value, text=...) *)
| Progress (value : Q) (text : str)      (* bar.progress(value, text=...) *)
| ProgressEmpty                           (* bar.empty() *)
| Info (msg : str)                        (* st.info(msg) *)
| Error (msg : str)                       (* st.error(msg) *)
| Request (req : request) (resp : response).

Definition trace := list event.

(** The requests issued so far, oldest first. *)
Fixpoint requests (tr : trace) : list request :=
  match tr with
  | [] => []
  | Request req _ :: tr' => req :: requests tr'
  | _ :: tr' => requests tr'
  end.

(** Stateful code: a function of the trace so far. *)
Definition M (A : Type) := trace -> outcome A * trace.

Definition ret {A} (a : A) : M A := fun tr => (Ret a, tr).

Definition bind {A B} (m : M A) (k : A -> M B) : M B :=
  fun tr => match m tr with
            | (Ret a, tr') => k a tr'
            | (Raise e, tr') => (Raise e, tr')
            | (Timeout, tr') => (Timeout, tr')
            end.

Notation "x <- m ;; k" := (bind m (fun x => k))
  (at level 61, m at next level, right associativity).
Notation "m ;; k" := (bind m (fun _ => k))
  (at level 61, right associativity).

Definition emit (ev : event) : M unit := fun tr => (Ret tt, tr ++ [ev]).

(** A pure computation that may raise or loop. *)
Definition lift {A} (o : outcome A) : M A := fun tr => (o, tr).

(** [try: m except Exception as e: handler(e)] *)
Definition try_except {A} (m : M A) (handler : exn -> M A) : M A :=
  fun tr => match m tr with
            | (Raise e, tr') => handler e tr'
            | r => r
            end.

(** [for x in xs: state = body(x, state)] *)
Fixpoint for_each {X S} (body : X -> S -> M S) (xs : list X) (s : S) : M S :=
  match xs with
  | [] => ret s
  | x :: xs' => s' <- body x s ;; for_each body xs' s'
  end.

(** [enumerate(xs)] *)
Definition enumerate {X} (xs : list X) : list (nat * X) :=
  combine (seq 0 (List.length xs)) xs.

Definition ratio (a b : nat) : Q := Z.of_nat a # Pos.of_nat b.

Definition nl : str := [newline].

(** [sep.join(parts)] on a list that may hold [None]: the first [None]
    raises [TypeError]. *)
Fixpoint first_none (parts : list (option str)) (i : nat) : option nat :=
  match parts with
  | [] => None
  | None :: _ => Some i
  | Some _ :: parts' => first_none parts' (S i)
  end.

Fixpoint texts (parts : list (option str)) : list str :=
  match parts with
  | [] => []
  | Some part :: parts' => part :: texts parts'
  | None :: parts' => texts parts'
  end.

Definition not_a_str (i : nat) : exn :=
  TypeError (py "sequence item " ++ str_of_nat i
             ++ py ": expected str instance, NoneType found").

Definition str_join (sep : str) (parts : list (option str)) : outcome str :=
  match first_none parts 0 with
  | Some i => Raise (not_a_str i)
  | None => Ret (join sep (texts parts))
  end.

Section Pipeline.

Context {tok : Tokenizer} {backend : Backend}.

(** [client.chat.completions.create(...)] followed by
    [.choices[0].message.content] *)
Definition create (req : request) : M (option str) :=
  fun tr =>
    let resp := chat_completions_create (requests tr) req in
    (content_of resp, tr ++ [Request req resp]).

(** *** Translation *)

Definition translation_instruction (target_language : str) : str :=
  py "あなたはプロの翻訳家です。以下のテキストを、意味を正確に保ちながら自然な"
  ++ target_language
  ++ py "に翻訳してください。フォーマットや改行は可能な限り維持してください。".

Definition translation_request (model target_language chunk : str) : request :=
  {| req_model := model;
     req_messages := [(py "system", translation_instruction target_language);
                      (py "user", chunk)];
     req_temperature := 2 # 10 |}.

Definition translation_error (page_num : nat) (e : exn) : str :=
  py "ページ " ++ str_of_nat page_num
  ++ py " の翻訳中にエラーが発生しました: " ++ exn_str e.

Definition failed_part : str := py "--- エラー：この部分の翻訳に失敗しました ---".

Definition empty_page (page_num : nat) : str :=
  py "--- ページ " ++ str_of_nat page_num ++ py " (内容は空でした) ---".

Definition page_progress (page_num total : nat) : str :=
  py "📄 ページ " ++ str_of_nat page_num ++ py "/" ++ str_of_nat total
  ++ py " の翻訳中...".

Definition page_section (entry : nat * str) : str :=
  py "--- ページ " ++ str_of_nat (fst entry + 1) ++ py " ---" ++ nl ++ nl ++ snd entry.

(** The body of the loop over the chunks of one page. *)
Definition translate_chunk (model target_language : str) (page_num : nat)
  (chunk : str) (translated_page_parts : list (option str)) : M (list (option str)) :=
  try_except
    (content <- create (translation_request model target_language chunk) ;;
     ret (translated_page_parts ++ [content]))
    (fun e =>
       emit (Error (translation_error page_num e)) ;;
       ret (translated_page_parts ++ [Some failed_part])).

(** The body of the loop over the pages. *)
Definition translate_page (fuel : nat) (model target_language : str) (total : nat)
  (entry : nat * str) (all_translated_pages : list str) : M (list str) :=
  let '(i, page_text) := entry in
  let page_num := (i + 1)%nat in
  emit (Progress (ratio i total) (page_progress page_num total)) ;;
  if negb (truthy (strip page_text)) then
    ret (all_translated_pages ++ [empty_page page_num])
  else
    sub_chunks <- lift (split_text_into_chunks model 2000 fuel page_text) ;;
    translated_page_parts <-
      for_each (translate_chunk model target_language page_num) sub_chunks [] ;;
    translated_page <- lift (str_join nl translated_page_parts) ;;
    ret (all_translated_pages ++ [translated_page]).

Definition translate_page_by_page (fuel : nat) (pages_text : list str)
  (model target_language : str) : M str :=
  match pages_text with
  | [] => ret []
  | _ =>
      emit (ProgressBar 0 (py "翻訳の準備をしています...")) ;;
      all_translated_pages <-
        for_each (translate_page fuel model target_language (List.length pages_text))
          (enumerate pages_text) [] ;;
      emit (Progress 1 (py "翻訳完了！")) ;;
      emit ProgressEmpty ;;
      ret (join (nl ++ nl ++ nl) (map page_section (enumerate all_translated_pages)))
  end.

(** *** Summarisation *)

Definition part_prompt (chunk : str) : str :=
  py "以下は論文の一部です。この部分の要点を簡潔にまとめてください。"
  ++ nl ++ nl ++ py "---" ++ nl ++ chunk.

Definition part_request (model chunk : str) : request :=
  {| req_model := model;
     req_messages := [(py "user", part_prompt chunk)];
     req_temperature := 2 # 10 |}.

Definition final_prompt (custom_prompt combined_summary : str) : str :=
  py "以下は論文の各パートの要約です。これらの情報を使って、ユーザーの指示に従った最終的な要約を作成してください。"
  ++ nl ++ nl ++ py "ユーザーの指示:「" ++ custom_prompt ++ py "」"
  ++ nl ++ nl ++ py "---" ++ nl ++ py "各パートの要約:" ++ nl ++ combined_summary.

Definition final_request (model custom_prompt combined_summary : str) : request :=
  {| req_model := model;
     req_messages :=
       [(py "system", py "あなたは優秀なリサーチアシスタントです。渡された要約の断片を統合し、最終的な回答を生成してください。");
        (py "user", final_prompt custom_prompt combined_summary)];
     req_temperature := 5 # 10 |}.

Definition parts_notice (n : nat) : str :=
  py "テキストが長いため、" ++ str_of_nat n
  ++ py "個のパートに分けて段階的に要約します。".

Definition part_done (k total : nat) : str :=
  py "パート " ++ str_of_nat k ++ py "/" ++ str_of_nat total ++ py " の要約完了".

(** The body of the map-phase loop. *)
Definition summarize_chunk (model : str) (total : nat) (entry : nat * str)
  (intermediate_summaries : list (option str)) : M (list (option str)) :=
  let '(i, chunk) := entry in
  content <- create (part_request model chunk) ;;
  let intermediate_summaries := intermediate_summaries ++ [content] in
  emit (Progress (ratio (i + 1) total) (part_done (i + 1) total)) ;;
  ret intermediate_summaries.

Definition summary_error (e : exn) : str := py "要約エラー: " ++ exn_str e.

(** The [try] block. *)
Definition summarize_body (fuel : nat) (text model custom_prompt : str)
  : M (option str) :=
  chunks <- lift (split_text_into_chunks model 3000 fuel text) ;;
  emit (Info (parts_notice (List.length chunks))) ;;
  emit (ProgressBar 0 (py "段階的要約を開始...")) ;;
  intermediate_summaries <-
    for_each (summarize_chunk model (List.length chunks)) (enumerate chunks) [] ;;
  combined_summary <- lift (str_join nl intermediate_summaries) ;;
  content <- create (final_request model custom_prompt combined_summary) ;;
  emit ProgressEmpty ;;
  ret content.

(** The result is a text, or [None] when the reply to the reduce request has
    no content. *)
Definition summarize_text (fuel : nat) (text model custom_prompt : str)
  : M (option str) :=
  if negb (truthy text) then ret (Some [])
  else
    try_except (summarize_body fuel text model custom_prompt)
      (fun e => emit (Error (summary_error e)) ;; ret (Some [])).

End Pipeline.

(** ** Scripted backends, for running the pipeline on examples *)

(** Answers the [k]-th request (counting from 0) with the [k]-th entry of the
    script, and echoes the model name once the script is exhausted. *)
Definition scripted (script : list response) : Backend :=
  {| chat_completions_create := fun history req =>
       nth (List.length history) script (Reply (req_model req)) |}.


(** ** Vocabulary of the statements *)

(** All the suffixes of a string, longest first: what can be left of a line
    while it is being cut. *)
Fixpoint tails (s : str) : list str :=
  s :: match s with
       | [] => []
       | _ :: s' => tails s'
       end.

(** Where a returned chunk comes from: a buffer the budget test accepted, a
    character-proportional prefix cut from an oversized line, or a buffer
    opened with what was left of a line. *)
Inductive chunk_origin {tok : Tokenizer} (model : str) (max_tokens : Z) : str -> Prop :=
| accepted_buffer c :
    count model c <= max_tokens -> chunk_origin model max_tokens c
| forced_prefix sentence cut :
    max_tokens < count model sentence ->
    cut_off_point model max_tokens sentence = Ret cut ->
    chunk_origin model max_tokens (slice_to cut sentence)
| opened_buffer rest :
    count model rest <= max_tokens ->
    chunk_origin model max_tokens (rest ++ nl).

(** Every cut computed while force-splitting the lines of [text] removes at
    least one character. *)
Definition cuts_progress {tok : Tokenizer} (model : str) (max_tokens : Z) (text : str) : Prop :=
  forall line s, In line (split_lines text) -> In s (tails line) ->
    max_tokens < count model s ->
    exists cut, cut_off_point model max_tokens s = Ret cut /\ 1 <= cut.

(** The answers the backend gave, oldest first. *)
Fixpoint responses (tr : trace) : list response :=
  match tr with
  | [] => []
  | Request _ resp :: tr' => resp :: responses tr'
  | _ :: tr' => responses tr'
  end.

(** The response that carries a given content. *)
Definition answer (content : option str) : response :=
  match content with
  | Some text => Reply text
  | None => NoContent
  end.

(** A response the backend gave: its answer to some request after some
    history. *)
Definition from_backend {backend : Backend} (resp : response) : Prop :=
  exists history req, resp = chat_completions_create history req.

(** A backend all of whose answers carry a text. *)
Definition always_text (backend : Backend) : Prop :=
  forall history req, chat_completions_create history req <> NoContent.



(** A page is blank when it holds nothing but white space. *)
Definition blank (page_text : str) : bool := forallb is_space page_text.

(** The requests a page gives rise to: none for a blank page, one per chunk,
    in chunk order, for any other. *)
Definition page_requests {tok : Tokenizer} (fuel : nat) (model target_language : str)
  (page_text : str) : list request :=
  if blank page_text then []
  else match split_text_into_chunks model 2000 fuel page_text with
       | Ret chunks => map (translation_request model target_language) chunks
       | _ => []
       end.

(** The output of the page at position [i]: the placeholder of a blank page,
    and for any other page as many newline-joined parts as it has chunks. *)
Definition page_output {tok : Tokenizer} (fuel : nat) (model : str)
  (i : nat) (page_text content : str) : Prop :=
  if blank page_text
  then content = py "--- ページ " ++ str_of_nat (i + 1) ++ py " (内容は空でした) ---"
  else exists chunks parts,
      split_text_into_chunks model 2000 fuel page_text = Ret chunks
      /\ List.length parts = List.length chunks
      /\ content = join nl parts.

(** ** The rest of the application *)

(** *** Strings, continued *)

(** [a == b] on strings. *)
Fixpoint str_eqb (a b : str) : bool :=
  match a, b with
  | [], [] => true
  | x :: a', y :: b' => (x =? y)%N && str_eqb a' b'
  | _, _ => false
  end.

Fixpoint starts_with (prefix s : str) : bool :=
  match prefix, s with
  | [], _ => true
  | p :: prefix', c :: s' => (p =? c)%N && starts_with prefix' s'
  | _ :: _, [] => false
  end.

(** [needle in hay] *)
Fixpoint contains (needle hay : str) : bool :=
  starts_with needle hay
  || match hay with
     | [] => false
     | _ :: hay' => contains needle hay'
     end.

(** The lines of a group, each followed by its newline, put end to end. *)
Definition render_lines (group : list str) : str :=
  List.concat (map (fun line => line ++ nl) group).

(** A chunk is closed late when the first line of the next chunk did not fit
    into it. *)
Definition closed_late {tok : Tokenizer} (model : str) (max_tokens : Z)
  (group next : list str) : Prop :=
  match next with
  | [] => True
  | line :: _ => max_tokens < count model (render_lines (group ++ [line]))
  end.

Fixpoint greedy_groups {tok : Tokenizer} (model : str) (max_tokens : Z)
  (groups : list (list str)) : Prop :=
  match groups with
  | [] => True
  | group :: rest =>
      closed_late model max_tokens group (hd [] rest)
      /\ greedy_groups model max_tokens rest
  end.

(** A group of lines makes a chunk within the budget, or is a single line. *)
Definition fits_or_single {tok : Tokenizer} (model : str) (max_tokens : Z)
  (group : list str) : Prop :=
  count model (render_lines group) <= max_tokens \/ exists line, group = [line].

(** *** [get_token_count] over the tokenizer library *)

Module Tiktoken.

(** An encoding cuts a text into tokens. *)
Definition encoding := str -> list nat.

(** The library: [encoding_for_model] knows some model names and raises
    [KeyError] ([None]) on the others; [get_encoding] finds an encoding by
    its own name. *)
Record library := {
  encoding_for_model : str -> option encoding;
  get_encoding : str -> encoding
}.

Definition get_token_count (lib : library) (text model : str) : nat :=
  let encoding :=
    match encoding_for_model lib model with
    | Some encoding => encoding
    | None => get_encoding lib (py "cl100k_base")
    end in
  List.length (encoding text).

Definition tokenizer (lib : library) : Tokenizer :=
  Build_Tokenizer (get_token_count lib).

(** A small library: ["gpt-4o"] has an encoding of one token per character,
    every other model name is unknown, and the default encoding spends one
    token per UTF-8 byte. *)
Definition sample : library :=
  {| encoding_for_model := fun model =>
       if str_eqb model (py "gpt-4o") then Some (map N.to_nat) else None;
     get_encoding := fun _ text => repeat 0%nat (byte_count text) |}.

End Tiktoken.

(** *** What the trace shows *)

(** Number of [st.error] reports. *)
Fixpoint errors (tr : trace) : nat :=
  match tr with
  | [] => 0
  | Error _ :: tr' => S (errors tr')
  | _ :: tr' => errors tr'
  end.

(** Number of backend requests that raised. *)
Fixpoint failures (tr : trace) : nat :=
  match tr with
  | [] => 0
  | Request _ (Failure _) :: tr' => S (failures tr')
  | _ :: tr' => failures tr'
  end.

(** The values given to the progress bar, oldest first. *)
Fixpoint progress_values (tr : trace) : list Q :=
  match tr with
  | [] => []
  | Progress value _ :: tr' => value :: progress_values tr'
  | _ :: tr' => progress_values tr'
  end.

(** *** [extract_text_from_pdf_by_page] *)

(** What the PDF library makes of an uploaded file: [fitz.open] raises or
    gives the pages, and [get_text] on a page raises or gives its text. *)
Definition uploaded_pdf := outcome (list (outcome str)).

(** [[page.get_text("text", sort=True) for page in doc]] *)
Fixpoint get_texts (doc : list (outcome str)) : outcome (list str) :=
  match doc with
  | [] => Ret []
  | page :: doc' =>
      obind page (fun text =>
      obind (get_texts doc') (fun texts => Ret (text :: texts)))
  end.

Definition extraction_error (e : exn) : str := py "PDFテキスト抽出エラー: " ++ exn_str e.

Definition extract_text_from_pdf_by_page (uploaded_file : uploaded_pdf) : M (list str) :=
  try_except
    (lift (obind uploaded_file get_texts))
    (fun e => emit (Error (extraction_error e)) ;; ret []).

(** *** [get_openai_client] and the session state *)

(** The object [OpenAI(api_key=...)] builds. *)
Variant client := OpenAI (api_key : str).

(** [st.session_state]: an attribute is there or not. *)
Record session_state := {
  openai_client : option client;
  api_key : option str;
  summary : option str;
  translation : option str;
  original : option str;
  filename : option str;
  result_generated : option bool
}.

Definition fresh_session : session_state :=
  {| openai_client := None; api_key := None; summary := None; translation := None;
     original := None; filename := None; result_generated := None |}.

(** The client library: building a client may raise, and so may
    [models.list()], whose answer may change from one call to the next. *)
Class OpenAILibrary := {
  init_error : str -> option exn;
  models_list : list client -> client -> option exn
}.

(** What [get_openai_client] does that can be seen from outside. *)
Inductive client_event :=
| Listed (c : client) (error : option exn)   (* c.models.list() *)
| Reported (msg : str).                       (* st.error(msg) *)

Fixpoint listed (log : list client_event) : list client :=
  match log with
  | [] => []
  | Listed c _ :: log' => c :: listed log'
  | _ :: log' => listed log'
  end.

(** Reading an attribute of the session state, or a variable of the script,
    that is not there. *)
Inductive lookup (A : Type) :=
| Found (a : A)
| AttributeError (name : str)
| NameError (name : str).
Arguments AttributeError {A} name.
Arguments NameError {A} name.

Definition client_error (e : exn) : str :=
  py "APIキーが無効か、接続に問題があります: " ++ exn_str e.

(** ['openai_client' not in st.session_state or st.session_state.api_key != api_key] *)
Definition client_is_stale (s : session_state) (key : str) : lookup bool :=
  match openai_client s with
  | None => Found true
  | Some _ =>
      match api_key s with
      | None => AttributeError (py "api_key")
      | Some stored => Found (negb (str_eqb stored key))
      end
  end.

Definition set_client (s : session_state) (c : client) : session_state :=
  {| openai_client := Some c; api_key := api_key s; summary := summary s;
     translation := translation s; original := original s; filename := filename s;
     result_generated := result_generated s |}.

Definition set_api_key (s : session_state) (key : str) : session_state :=
  {| openai_client := openai_client s; api_key := Some key; summary := summary s;
     translation := translation s; original := original s; filename := filename s;
     result_generated := result_generated s |}.

Definition get_openai_client {lib : OpenAILibrary} (key : str)
  (state : session_state * list client_event)
  : lookup (option client) * (session_state * list client_event) :=
  let '(s, log) := state in
  match client_is_stale s key with
  | AttributeError name => (AttributeError name, state)
  | NameError name => (NameError name, state)
  | Found false => (Found (openai_client s), state)
  | Found true =>
      match init_error key with
      | Some e => (Found None, (s, log ++ [Reported (client_error e)]))
      | None =>
          let c := OpenAI key in
          let s' := set_api_key (set_client s c) key in
          match models_list (listed log) c with
          | Some e =>
              (Found None, (s', log ++ [Listed c (Some e); Reported (client_error e)]))
          | None => (Found (openai_client s'), (s', log ++ [Listed c None]))
          end
      end
  end.

(** The stored client always comes with the key it was built from. *)
Definition session_consistent (s : session_state) : Prop :=
  match openai_client s with
  | Some (OpenAI key) => api_key s = Some key
  | None => True
  end.

(** A client library that accepts every key but whose [models.list()] fails
    the first time it is called. *)
Definition flaky_library : OpenAILibrary :=
  {| init_error := fun _ => None;
     models_list := fun earlier _ =>
       match earlier with
       | [] => Some (BackendError (py "401"))
       | _ => None
       end |}.

(** *** The sidebar and the run *)

Inductive process_choice := TranslateAndSummarize | TranslateOnly | SummarizeOnly.

(** The labels of the radio button. *)
Definition process_label (c : process_choice) : str :=
  match c with
  | TranslateAndSummarize => py "翻訳と要約"
  | TranslateOnly => py "翻訳のみ"
  | SummarizeOnly => py "要約のみ"
  end.

Inductive source_choice := OriginalText | TranslatedText.

Definition source_label (c : source_choice) : str :=
  match c with
  | OriginalText => py "元のテキスト"
  | TranslatedText => py "翻訳後のテキスト"
  end.

(** What the user has set in the sidebar widgets. *)
Record widgets := {
  chosen_model : str;
  chosen_process : process_choice;
  chosen_language : str;
  chosen_source : source_choice;
  typed_prompt : str
}.

(** The variables the sidebar code binds: some only under a condition. *)
Record sidebar := {
  model_option : str;
  process_option : str;
  target_language : option str;
  summarize_source : option str;
  custom_prompt : option str
}.

Definition read_sidebar (w : widgets) : sidebar :=
  let process_option := process_label (chosen_process w) in
  {| model_option := chosen_model w;
     process_option := process_option;
     target_language :=
       if contains (py "翻訳") process_option then Some (chosen_language w) else None;
     summarize_source :=
       if contains (py "要約") process_option then
         Some (if str_eqb process_option (py "翻訳と要約")
               then source_label (chosen_source w)
               else py "元のテキスト")
       else None;
     custom_prompt :=
       if contains (py "要約") process_option then Some (typed_prompt w) else None |}.

(** Reading a variable of the script: [NameError] when the sidebar code did
    not bind it. *)
Definition with_variable {A} (name : string) (value : option str)
  (k : str -> M (lookup A)) : M (lookup A) :=
  match value with
  | Some v => k v
  | None => ret (NameError (py name))
  end.

(** The lines between the extraction and the final success message: the
    translation, then the summary, as the sidebar asks.  The result is the
    pair [(translated_text, summary_text)]; the summary is a text or [None],
    as [summarize_text] returns it. *)
Definition run_pipeline {tok : Tokenizer} {backend : Backend} (fuel : nat)
  (sb : sidebar) (pages_text_list : list str) : M (lookup (str * option str)) :=
  found_translation <-
    (if contains (py "翻訳") (process_option sb) then
       with_variable "target_language" (target_language sb) (fun language =>
         translated_text <-
           translate_page_by_page fuel pages_text_list (model_option sb) language ;;
         ret (Found translated_text))
     else ret (Found [])) ;;
  match found_translation with
  | Found translated_text =>
      if contains (py "要約") (process_option sb) then
        let full_original_text := join nl pages_text_list in
        with_variable "summarize_source" (summarize_source sb) (fun source =>
          let text_for_summary :=
            if str_eqb source (py "翻訳後のテキスト") && truthy translated_text
            then translated_text else full_original_text in
          with_variable "custom_prompt" (custom_prompt sb) (fun prompt =>
            summary_text <-
              summarize_text fuel text_for_summary (model_option sb) prompt ;;
            ret (Found (translated_text, summary_text))))
      else ret (Found (translated_text, Some []))
  | AttributeError name => ret (AttributeError name)
  | NameError name => ret (NameError name)
  end.

(** *** The result page *)

(** The four values the run leaves in the session state. *)
Record results := {
  res_summary : option str;
  res_translation : str;
  res_original : str;
  res_filename : str
}.

Definition page_break : str := nl ++ nl ++ py "--- Page Break ---" ++ nl ++ nl.

Definition store_results (name : str) (pages_text_list : list str)
  (translated_text : str) (summary_text : option str) : results :=
  {| res_summary := summary_text;
     res_translation := translated_text;
     res_original := join page_break pages_text_list;
     res_filename := name |}.

(** [if st.session_state.summary:] gives the summary when it is a non-empty
    text. *)
Definition shown_summary (r : results) : option str :=
  match res_summary r with
  | Some text => if truthy text then Some text else None
  | None => None
  end.

Definition markdown_output (r : results) : str :=
  let markdown_output := py "# 📄 「" ++ res_filename r ++ py "」の処理結果" ++ nl ++ nl in
  let markdown_output :=
    match shown_summary r with
    | Some text =>
        markdown_output ++ py "## 概要" ++ nl ++ nl ++ text
                        ++ nl ++ nl ++ py "---" ++ nl ++ nl
    | None => markdown_output
    end in
  if truthy (res_translation r)
  then markdown_output ++ py "## 全文翻訳" ++ nl ++ nl ++ res_translation r ++ nl ++ nl
  else markdown_output.

Definition tab_titles (r : results) : list str :=
  let tab_titles := [] in
  let tab_titles :=
    match shown_summary r with
    | Some _ => tab_titles ++ [py "要約"]
    | None => tab_titles
    end in
  let tab_titles :=
    if truthy (res_translation r) then tab_titles ++ [py "翻訳結果"] else tab_titles in
  tab_titles ++ [py "元のテキスト"].

(** What is drawn inside a tab. *)
Inductive widget :=
| Markdown (body : str)                (* st.markdown(body) *)
| TextArea (label value : str).        (* st.text_area(label, value, height=500) *)

(** Drawing the result page ends with the widgets drawn, each with the title
    of its tab, or with an exception: [tabs[tab_index]] past the last tab, or
    a second text area just like one drawn before, which is refused. *)
Inductive page_result :=
| Drawn (widgets : list (str * widget))
| IndexError
| DuplicateElementId.

(** A text area is identified by what it is called with: there is no [key],
    so two of them with the same label and value are one and the same. *)
Definition same_element (w1 w2 : widget) : bool :=
  match w1, w2 with
  | TextArea label1 value1, TextArea label2 value2 =>
      str_eqb label1 label2 && str_eqb value1 value2
  | _, _ => false
  end.

(** [with tabs[tab_index]: w] after the widgets [shown] *)
Definition draw_in_tab (tabs : list str) (tab_index : nat) (w : widget)
  (shown : list (str * widget)) (next : list (str * widget) -> page_result)
  : page_result :=
  match nth_error tabs tab_index with
  | None => IndexError
  | Some title =>
      if existsb (fun drawn => same_element (snd drawn) w) shown
      then DuplicateElementId
      else next (shown ++ [(title, w)])
  end.

(** The tabs of the result page. *)
Definition show_tabs (r : results) : page_result :=
  let tabs := tab_titles r in
  let tab_index := 0%nat in
  let after_summary (next : list (str * widget) -> nat -> page_result) :=
    match shown_summary r with
    | Some text =>
        draw_in_tab tabs tab_index (Markdown text) []
          (fun shown => next shown (tab_index + 1)%nat)
    | None => next [] tab_index
    end in
  after_summary (fun shown tab_index =>
    let after_translation (next : list (str * widget) -> nat -> page_result) :=
      if truthy (res_translation r) then
        draw_in_tab tabs tab_index (TextArea (py " ") (res_translation r)) shown
          (fun shown => next shown (tab_index + 1)%nat)
      else next shown tab_index in
    after_translation (fun shown tab_index =>
      draw_in_tab tabs tab_index (TextArea (py " ") (res_original r)) shown Drawn)).

(** * Properties *)

(** ** Strings *)

(** [str(n)], as the f-strings write a page number: [n] in decimal. *)
Example str_of_nat_decimal :
  str_of_nat 0 = py "0" /\ str_of_nat 7 = py "7" /\ str_of_nat 10 = py "10"
  /\ str_of_nat 109 = py "109" /\ str_of_nat 2026 = py "2026".
Proof. vm_compute. repeat split. Qed.

Lemma split_lines_nonempty (s : str) : split_lines s <> [].
Proof.
  destruct s as [|c s]; simpl; [discriminate|].
  destruct (c =? newline)%N; [discriminate|].
  destruct (split_lines s); discriminate.
Qed.

Lemma concat_split_lines (s : str) :
  List.concat (map (fun line => line ++ nl) (split_lines s)) = s ++ nl.
Proof.
  induction s as [|c s IH]; [reflexivity|].
  simpl. destruct (N.eqb_spec c newline) as [->|Hc].
  - simpl. now rewrite IH.
  - destruct (split_lines s) as [|l ls] eqn:E.
    + now destruct (split_lines_nonempty s).
    + simpl in *. now rewrite IH.
Qed.

Lemma slice_to_from (k : Z) (s : str) : slice_to k s ++ slice_from k s = s.
Proof. apply firstn_skipn. Qed.

Lemma tails_self (s : str) : In s (tails s).
Proof. destruct s; simpl; auto. Qed.

Lemma tails_skipn (n : nat) (s : str) : In (skipn n s) (tails s).
Proof.
  revert s; induction n as [|n IH]; intros s.
  - apply tails_self.
  - destruct s as [|c s]; [simpl; auto|].
    simpl skipn. simpl tails. right. apply IH.
Qed.

Lemma tails_trans (s t r : str) : In t (tails s) -> In r (tails t) -> In r (tails s).
Proof.
  induction s as [|c s IH]; simpl; intros [<-|H] Hr; auto; contradiction.
Qed.

Lemma tails_length (s t : str) : In t (tails s) -> (List.length t <= List.length s)%nat.
Proof.
  induction s as [|c s IH]; simpl; intros [<-|H]; simpl; auto; contradiction.
Qed.

Lemma slice_index_progress (n : nat) (k : Z) :
  1 <= k -> (0 < n)%nat -> (0 < slice_index n k)%nat.
Proof.
  intros Hk Hn. unfold slice_index.
  destruct (Z.ltb_spec k 0); lia.
Qed.

Lemma split_lines_length (s line : str) :
  In line (split_lines s) -> (List.length line <= List.length s)%nat.
Proof.
  revert line; induction s as [|c s IH]; intros line; simpl.
  - intros [<-|[]]. simpl; lia.
  - destruct (c =? newline)%N.
    + intros [<-|H]; simpl; [lia|]. specialize (IH _ H). lia.
    + destruct (split_lines s) as [|l ls] eqn:E.
      * intros [<-|[]]. simpl; lia.
      * intros [<-|H]; simpl.
        -- specialize (IH l (or_introl eq_refl)). lia.
        -- specialize (IH line (or_intror H)). lia.
Qed.

Lemma lstrip_blank (s : str) : lstrip s = [] <-> blank s = true.
Proof.
  unfold blank. induction s as [|c s IH]; simpl; [tauto|].
  destruct (is_space c); simpl; [exact IH|].
  split; discriminate.
Qed.

(** [not page_text.strip()] is the test "blank". *)
Lemma strip_blank (s : str) : negb (truthy (strip s)) = blank s.
Proof.
  unfold strip. destruct (blank s) eqn:B.
  - apply lstrip_blank in B. now rewrite B.
  - assert (H : lstrip s <> []) by (intros H; apply lstrip_blank in H; congruence).
    assert (G : forall t, t <> [] -> lstrip t = t -> lstrip (rev t) <> []).
    { intros t Ht Hl E. apply lstrip_blank in E. unfold blank in E.
      rewrite forallb_forall in E.
      destruct t as [|c t]; [congruence|].
      simpl in Hl. destruct (is_space c) eqn:Sc.
      - assert (L : (List.length (lstrip t) <= List.length t)%nat).
        { clear. induction t as [|d t IH]; simpl; [lia|].
          destruct (is_space d); simpl; lia. }
        rewrite Hl in L. simpl in L. lia.
      - rewrite (E c) in Sc; [discriminate|]. apply in_rev. rewrite rev_involutive. now left. }
    assert (I : lstrip (lstrip s) = lstrip s).
    { clear. induction s as [|c s IH]; simpl; [reflexivity|].
      destruct (is_space c) eqn:Sc; [exact IH|]. simpl. now rewrite Sc. }
    specialize (G _ H I).
    destruct (lstrip (rev (lstrip s))) as [|c t] eqn:E; [congruence|].
    simpl. destruct (rev t ++ [c]) eqn:F; [|reflexivity].
    now destruct (rev t).
Qed.

(** ** The chunker *)

Section ChunkerFacts.

Context {tok : Tokenizer}.
Variable model : str.
Variable max_tokens : Z.

Local Abbreviation origin := (chunk_origin model max_tokens).

Lemma force_split_unfold (fuel : nat) (sentence : str) (chunks : list str) :
  force_split model max_tokens fuel sentence chunks =
  if max_tokens <? count model sentence then
    match fuel with
    | O => Timeout
    | S fuel' =>
        obind (cut_off_point model max_tokens sentence) (fun cut =>
        force_split model max_tokens fuel' (slice_from cut sentence)
          (chunks ++ [slice_to cut sentence]))
    end
  else Ret (chunks, sentence).
Proof. destruct fuel; reflexivity. Qed.

Lemma flush_concat (chunks : list str) (current_chunk : str) :
  List.concat (flush chunks current_chunk) = List.concat chunks ++ current_chunk.
Proof.
  unfold flush. destruct current_chunk as [|c s]; simpl.
  - now rewrite app_nil_r.
  - rewrite concat_app. simpl. now rewrite app_nil_r.
Qed.

(** The cut of an empty line is 0 whenever it is computed at all. *)
Lemma cut_off_point_nil (cut : Z) :
  cut_off_point model max_tokens [] = Ret cut -> cut = 0.
Proof.
  unfold cut_off_point, Float.truediv.
  destruct (count model [] =? 0); [discriminate|].
  destruct (SFdiv _ _ _ _) as [s|s| |s m e]; simpl; try discriminate;
    intros H; now inversion H.
Qed.

(** Force-splitting loses and duplicates no character. *)
Lemma force_split_concat (fuel : nat) :
  forall sentence chunks chunks' rest,
    force_split model max_tokens fuel sentence chunks = Ret (chunks', rest) ->
    List.concat chunks' ++ rest = List.concat chunks ++ sentence.
Proof.
  induction fuel as [|fuel IH]; intros sentence chunks chunks' rest;
    rewrite force_split_unfold; destruct (max_tokens <? count model sentence);
    try discriminate; try (intros H; now inversion H).
  destruct (cut_off_point model max_tokens sentence) as [cut| |]; simpl; try discriminate.
  intros H. apply IH in H. rewrite H, concat_app. simpl.
  now rewrite app_nil_r, <- app_assoc, slice_to_from.
Qed.

Lemma force_split_origin (fuel : nat) :
  forall sentence chunks chunks' rest,
    Forall origin chunks ->
    force_split model max_tokens fuel sentence chunks = Ret (chunks', rest) ->
    Forall origin chunks' /\ count model rest <= max_tokens.
Proof.
  induction fuel as [|fuel IH]; intros sentence chunks chunks' rest Hc;
    rewrite force_split_unfold;
    destruct (Z.ltb_spec max_tokens (count model sentence)) as [Hgt|Hle];
    try discriminate; try (intros H; inversion H; subst; now split).
  destruct (cut_off_point model max_tokens sentence) as [cut| |] eqn:Ecut;
    simpl; try discriminate.
  apply IH. apply Forall_app; split; [assumption|].
  constructor; [|constructor]. now apply forced_prefix.
Qed.

(** The loop ends within [length sentence] iterations when each cut it
    computes removes at least one character. *)
Lemma force_split_returns (fuel : nat) :
  forall sentence chunks,
    (forall s, In s (tails sentence) -> max_tokens < count model s ->
       exists cut, cut_off_point model max_tokens s = Ret cut /\ 1 <= cut) ->
    (List.length sentence <= fuel)%nat ->
    exists r, force_split model max_tokens fuel sentence chunks = Ret r.
Proof.
  induction fuel as [|fuel IH]; intros sentence chunks Hcut Hlen;
    rewrite force_split_unfold;
    destruct (Z.ltb_spec max_tokens (count model sentence)) as [Hgt|Hle];
    try (eexists; reflexivity).
  - destruct sentence; [|simpl in Hlen; lia].
    destruct (Hcut [] (tails_self _) Hgt) as (cut & E & Hpos).
    apply cut_off_point_nil in E. lia.
  - destruct (Hcut _ (tails_self _) Hgt) as (cut & E & Hpos).
    rewrite E. simpl.
    destruct sentence as [|c s].
    { apply cut_off_point_nil in E. lia. }
    apply IH.
    + intros t Ht. apply Hcut. eapply tails_trans; [|exact Ht].
      unfold slice_from. apply tails_skipn.
    + unfold slice_from. rewrite length_skipn.
      assert (0 < slice_index (List.length (c :: s)) cut)%nat
        by (apply slice_index_progress; simpl; lia).
      lia.
Qed.

(** A cut of 0 leaves the line as it was: the loop never ends. *)
Lemma force_split_zero_cut (sentence : str) :
  max_tokens < count model sentence ->
  cut_off_point model max_tokens sentence = Ret 0 ->
  forall fuel chunks, force_split model max_tokens fuel sentence chunks = Timeout.
Proof.
  intros Hgt Hcut. induction fuel as [|fuel IH]; intros chunks;
    rewrite force_split_unfold;
    destruct (Z.ltb_spec max_tokens (count model sentence)); try lia; [reflexivity|].
  rewrite Hcut. simpl obind.
  replace (slice_from 0 sentence) with sentence by reflexivity.
  apply IH.
Qed.

Lemma accumulate_concat (fuel : nat) (sentences : list str) :
  forall chunks current chunks' current',
    accumulate model max_tokens fuel sentences chunks current = Ret (chunks', current') ->
    List.concat chunks' ++ current' =
    List.concat chunks ++ current ++ List.concat (map (fun line => line ++ nl) sentences).
Proof.
  induction sentences as [|sentence rest IH]; intros chunks current chunks' current'; simpl.
  - intros H; inversion H. now rewrite app_nil_r.
  - destruct (count model (current ++ sentence ++ [newline]) <=? max_tokens).
    + intros H. apply IH in H. rewrite H. unfold nl. now rewrite <- !app_assoc.
    + destruct (force_split model max_tokens fuel sentence (flush chunks current))
        as [[chunks1 sentence1]| |] eqn:E; simpl; try discriminate.
      intros H. apply IH in H. apply force_split_concat in E.
      rewrite flush_concat in E.
      rewrite H. unfold nl. rewrite <- !app_assoc.
      rewrite (app_assoc (List.concat chunks1) sentence1), E.
      now rewrite <- !app_assoc.
Qed.

Lemma flush_origin (chunks : list str) (current : str) :
  Forall origin chunks -> current = [] \/ origin current ->
  Forall origin (flush chunks current).
Proof.
  intros Hc [->|Hcur]; [exact Hc|].
  unfold flush. destruct (truthy current); [|exact Hc].
  apply Forall_app; split; [exact Hc|]. now constructor.
Qed.

Lemma accumulate_origin (fuel : nat) (sentences : list str) :
  forall chunks current chunks' current',
    Forall origin chunks -> current = [] \/ origin current ->
    accumulate model max_tokens fuel sentences chunks current = Ret (chunks', current') ->
    Forall origin chunks' /\ (current' = [] \/ origin current').
Proof.
  induction sentences as [|sentence rest IH]; intros chunks current chunks' current' Hc Hcur; simpl.
  - intros H; inversion H; subst; now split.
  - destruct (Z.leb_spec (count model (current ++ sentence ++ [newline])) max_tokens) as [Hle|Hgt].
    + apply IH; [exact Hc|]. right. now apply accepted_buffer.
    + destruct (force_split model max_tokens fuel sentence (flush chunks current))
        as [[chunks1 sentence1]| |] eqn:E; simpl; try discriminate.
      apply force_split_origin in E; [|now apply flush_origin].
      destruct E as [E1 E2].
      apply IH; [exact E1|]. right. now apply opened_buffer.
Qed.

Lemma accumulate_returns (fuel : nat) (sentences : list str) :
  forall chunks current,
    (forall line s, In line sentences -> In s (tails line) -> max_tokens < count model s ->
       exists cut, cut_off_point model max_tokens s = Ret cut /\ 1 <= cut) ->
    (forall line, In line sentences -> (List.length line <= fuel)%nat) ->
    exists r, accumulate model max_tokens fuel sentences chunks current = Ret r.
Proof.
  induction sentences as [|sentence rest IH]; intros chunks current Hcut Hlen; simpl.
  - eexists; reflexivity.
  - destruct (count model (current ++ sentence ++ [newline]) <=? max_tokens).
    + apply IH; intros; [eapply Hcut|apply Hlen]; simpl; eauto.
    + destruct (@force_split_returns fuel sentence (flush chunks current)
                  (fun s => Hcut sentence s (or_introl eq_refl))
                  (Hlen sentence (or_introl eq_refl))) as [[chunks1 sentence1] E].
      rewrite E. simpl.
      apply IH; intros; [eapply Hcut|apply Hlen]; simpl; eauto.
Qed.

(** Whenever the chunker returns, its chunks put end to end are the text
    followed by one newline. *)
Lemma split_text_into_chunks_concat (fuel : nat) (text : str) (chunks : list str) :
  split_text_into_chunks model max_tokens fuel text = Ret chunks ->
  List.concat chunks = text ++ nl.
Proof.
  unfold split_text_into_chunks.
  destruct (accumulate model max_tokens fuel (split_lines text) [] [])
    as [[chunks1 current]| |] eqn:E; simpl; try discriminate.
  intros H; inversion H; subst. rewrite flush_concat.
  apply accumulate_concat in E. rewrite E. simpl. apply concat_split_lines.
Qed.

(** The chunker returns, given [length text] iterations for its inner loop,
    when every cut removes at least one character. *)
Lemma split_text_into_chunks_returns (fuel : nat) (text : str) :
  cuts_progress model max_tokens text ->
  (List.length text <= fuel)%nat ->
  exists chunks, split_text_into_chunks model max_tokens fuel text = Ret chunks.
Proof.
  intros Hcut Hlen. unfold split_text_into_chunks.
  destruct (@accumulate_returns fuel (split_lines text) [] []) as [[chunks current] E].
  - exact Hcut.
  - intros line Hl. apply split_lines_length in Hl. lia.
  - rewrite E. simpl. eexists; reflexivity.
Qed.

End ChunkerFacts.

Lemma byte_count_app (s t : str) : byte_count (s ++ t) = (byte_count s + byte_count t)%nat.
Proof. induction s as [|c s IH]; simpl; [reflexivity|]. rewrite IH. lia. Qed.

(** *** Budget of the returned chunks *)

(** C1, as amended.  Every chunk [split_text_into_chunks] returns is a buffer
    the budget test accepted, and so counts at most [max_tokens] tokens, or
    is a character-proportional prefix cut from a line over the budget, or is
    what was left of a line, itself within the budget, followed by a
    newline.  Chunks of the last two kinds are returned without being
    measured. *)
Theorem chunk_budget_by_origin {tok : Tokenizer} (model : str) (max_tokens : Z)
  (fuel : nat) (text : str) (chunks : list str) :
  split_text_into_chunks model max_tokens fuel text = Ret chunks ->
  Forall (chunk_origin model max_tokens) chunks.
Proof.
  unfold split_text_into_chunks.
  destruct (accumulate model max_tokens fuel (split_lines text) [] [])
    as [[chunks1 current]| |] eqn:E; simpl; try discriminate.
  intros H; inversion H; subst.
  apply accumulate_origin in E; auto.
  destruct E. now apply flush_origin.
Qed.

Lemma chunk_budget_by_origin_witness :
  Forall (@chunk_origin byte_tokenizer (py "gpt-4o") 5) [py "ああa"; py "aaa" ++ nl].
Proof.
  apply (@chunk_budget_by_origin byte_tokenizer (py "gpt-4o") 5 10 (py "ああaaaa")).
  vm_compute. reflexivity.
Defined.

(** C1, as stated, fails.  With a budget of 5 tokens and a tokenizer that
    spends one token per UTF-8 byte, the 10-token line ["ああaaaa"] is cut at
    character [int(6 * (5 / 10)) = 3]; the prefix ["ああa"] is returned as a
    chunk and counts 7 tokens. *)
Lemma chunk_budget_counterexample :
  exists chunks c,
    @split_text_into_chunks byte_tokenizer (py "gpt-4o") 5 10 (py "ああaaaa") = Ret chunks
    /\ In c chunks
    /\ 5 < @count byte_tokenizer (py "gpt-4o") c.
Proof.
  exists [py "ああa"; py "aaa" ++ nl], (py "ああa").
  split; [vm_compute; reflexivity|].
  split; [now left|]. vm_compute. reflexivity.
Qed.

(** The buffer opened after a line failed the budget test is not measured
    either: a one-token line with a budget of one token comes back with its
    newline, as a chunk of two tokens. *)
Example opened_buffer_over_budget :
  @split_text_into_chunks byte_tokenizer (py "gpt-4o") 1 10 (py "a") = Ret [py "a" ++ nl]
  /\ @count byte_tokenizer (py "gpt-4o") (py "a" ++ nl) = 2.
Proof. split; vm_compute; reflexivity. Qed.

(** *** Empty text *)

(** C2, as amended.  When the empty string counts no more tokens than the
    budget (it counts none for a tokenizer that encodes it to the empty token
    list), [split_text_into_chunks] applied to the empty string returns
    exactly one chunk, which consists of a single newline. *)
Theorem split_empty_text {tok : Tokenizer} (model : str) (max_tokens : Z) (fuel : nat) :
  count model [] <= max_tokens ->
  split_text_into_chunks model max_tokens fuel [] = Ret [nl].
Proof.
  intros H. unfold split_text_into_chunks. simpl.
  destruct (count model [newline] <=? max_tokens); [reflexivity|].
  rewrite force_split_unfold.
  destruct (Z.ltb_spec max_tokens (count model [])); [lia|reflexivity].
Qed.

Lemma split_empty_text_witness :
  @split_text_into_chunks byte_tokenizer (py "gpt-4o") 2000 0 (py "") = Ret [nl].
Proof.
  apply (@split_empty_text byte_tokenizer (py "gpt-4o") 2000 0).
  vm_compute. discriminate.
Defined.

(** C2, as stated, fails: on the empty string the chunker returns one chunk,
    the newline it appends to the only (empty) line. *)
Lemma split_empty_text_counterexample :
  exists chunks,
    @split_text_into_chunks byte_tokenizer (py "gpt-4o") 2000 0 (py "") = Ret chunks
    /\ chunks <> [].
Proof. exists [nl]. split; [vm_compute; reflexivity|discriminate]. Qed.

(** *** Reassembling the text *)

(** C3, as amended.  The chunks [split_text_into_chunks] returns, put end to
    end, are the input text followed by one newline: nothing is lost or
    duplicated, also when lines over the budget are force-split.  When the
    text followed by the newline the chunker appends fits the budget, at its
    end and at each line end before it, the result is that single chunk.  A
    result is returned, within [length text] iterations of the force-split
    loop, whenever each cut removes at least one character. *)
Theorem chunks_reassemble_text {tok : Tokenizer} (model : str) (max_tokens : Z) (text : str) :
  (forall fuel chunks,
      split_text_into_chunks model max_tokens fuel text = Ret chunks ->
      List.concat chunks = text ++ nl)
  /\ ((forall p s, (p ++ nl) ++ s = text ++ nl -> count model (p ++ nl) <= max_tokens) ->
      forall fuel, split_text_into_chunks model max_tokens fuel text = Ret [text ++ nl])
  /\ (cuts_progress model max_tokens text ->
      forall fuel, (List.length text <= fuel)%nat ->
      exists chunks,
        split_text_into_chunks model max_tokens fuel text = Ret chunks
        /\ List.concat chunks = text ++ nl).
Proof.
  split; [|split].
  - intros fuel chunks. apply split_text_into_chunks_concat.
  - intros Hfit fuel.
    assert (G : forall sentences current,
               current ++ List.concat (map (fun line => line ++ nl) sentences) = text ++ nl ->
               accumulate model max_tokens fuel sentences [] current = Ret ([], text ++ nl)).
    { induction sentences as [|sentence rest IH]; intros current E; simpl in *.
      - rewrite app_nil_r in E. now subst.
      - unfold nl in E. rewrite <- app_assoc in E.
        destruct (Z.leb_spec (count model (current ++ sentence ++ [newline])) max_tokens) as [_|Hgt].
        + apply IH. unfold nl. now rewrite <- !app_assoc.
        + specialize (Hfit (current ++ sentence)
                        (List.concat (map (fun line => line ++ [newline]) rest))).
          unfold nl in Hfit. rewrite <- !app_assoc in Hfit. specialize (Hfit E). lia. }
    unfold split_text_into_chunks.
    rewrite (G (split_lines text) []); [|apply concat_split_lines].
    unfold nl; simpl. unfold flush.
    now destruct text.
  - intros Hcut fuel Hlen.
    destruct (split_text_into_chunks_returns Hcut Hlen) as [chunks E].
    exists chunks. split; [exact E|]. eapply split_text_into_chunks_concat; eauto.
Qed.

Lemma chunks_reassemble_text_witness :
  (List.concat [py "aaaaa"; py "aaaaa"; py "aaaaa"; py "aaaaa"; py "aaaaa" ++ nl]
   = py "aaaaaaaaaaaaaaaaaaaaaaaaa" ++ nl)
  /\ @split_text_into_chunks byte_tokenizer (py "gpt-4o") 2000 0
       (py "Hello world" ++ nl ++ py "Line two" ++ nl ++ py "Line three")
     = Ret [(py "Hello world" ++ nl ++ py "Line two" ++ nl ++ py "Line three") ++ nl]
  /\ exists chunks,
       @split_text_into_chunks byte_tokenizer (py "gpt-4o") 5 25
         (py "aaaaaaaaaaaaaaaaaaaaaaaaa") = Ret chunks
       /\ List.concat chunks = py "aaaaaaaaaaaaaaaaaaaaaaaaa" ++ nl.
Proof.
  destruct (@chunks_reassemble_text byte_tokenizer (py "gpt-4o") 5
              (py "aaaaaaaaaaaaaaaaaaaaaaaaa")) as (A & _ & C).
  destruct (@chunks_reassemble_text byte_tokenizer (py "gpt-4o") 2000
              (py "Hello world" ++ nl ++ py "Line two" ++ nl ++ py "Line three"))
    as (_ & B & _).
  split; [|split].
  - apply (A 25%nat). vm_compute. reflexivity.
  - apply B. intros p s E.
    assert (L : (byte_count (p ++ nl) <= byte_count ((p ++ nl) ++ s))%nat)
      by (rewrite (byte_count_app (p ++ nl)); lia).
    rewrite E in L. unfold count. simpl get_token_count.
    apply Z.le_trans with (Z.of_nat 32); [|vm_compute; discriminate].
    apply Nat2Z.inj_le. exact L.
  - apply C; [|vm_compute; lia].
    intros line s [<-|[]] Hs Hc. simpl in Hs.
    repeat (destruct Hs as [<-|Hs];
            [first [ exfalso; vm_compute in Hc; discriminate
                   | eexists; split; [vm_compute; reflexivity|lia] ]|]).
    contradiction.
Defined.

(** C3, as stated, fails.  The text ["a\nb"] counts 3 tokens, one per byte,
    and so fits a budget of 3; but the chunker measures each buffer with the
    newline it appends, ["a\nb\n"] counts 4, and the text comes back in two
    chunks. *)
Lemma whole_text_fits_counterexample :
  @count byte_tokenizer (py "gpt-4o") (py "a" ++ nl ++ py "b") <= 3
  /\ @split_text_into_chunks byte_tokenizer (py "gpt-4o") 3 0 (py "a" ++ nl ++ py "b")
     = Ret [py "a" ++ nl; py "b" ++ nl].
Proof. split; vm_compute; [discriminate|reflexivity]. Qed.

(** With [one_word_tokenizer] and a budget of 1, the text with its newline
    fits, its first line with its newline does not, and the chunks are three:
    the budget has to hold at each line end. *)
Example fits_at_the_end_only :
  @count one_word_tokenizer (py "gpt-4o") ((py "a" ++ nl ++ py "b" ++ nl ++ py "c") ++ nl) <= 1
  /\ @split_text_into_chunks one_word_tokenizer (py "gpt-4o") 1 0
       (py "a" ++ nl ++ py "b" ++ nl ++ py "c")
     = Ret [py "a" ++ nl; py "b" ++ nl; py "c" ++ nl].
Proof. split; vm_compute; [discriminate|reflexivity]. Qed.

(** *** Termination of the force-split loop *)

(** C9 fails on the code: the cut point can be 0.  The single character
    U+13000 counts 4 tokens with a tokenizer that spends one token per UTF-8
    byte; with a budget of 1 token the cut is [int(1 * (1 / 4)) = 0], the
    empty prefix is appended, the line is left as it was, and the loop never
    ends: the chunker gives no result, however many iterations it is
    allowed. *)
Theorem force_split_zero_cut_loops :
  @cut_off_point byte_tokenizer (py "gpt-4o") 1 (py "𓀀") = Ret 0
  /\ forall fuel,
       @split_text_into_chunks byte_tokenizer (py "gpt-4o") 1 fuel (py "𓀀") = Timeout.
Proof.
  split; [vm_compute; reflexivity|].
  assert (L : forall fuel chunks,
             @force_split byte_tokenizer (py "gpt-4o") 1 fuel (py "𓀀") chunks = Timeout)
    by (apply force_split_zero_cut; vm_compute; reflexivity).
  intros fuel. unfold split_text_into_chunks.
  change (split_lines (py "𓀀")) with [py "𓀀"].
  unfold accumulate.
  change (@count byte_tokenizer (py "gpt-4o") ([] ++ py "𓀀" ++ [newline]) <=? 1) with false.
  cbv iota. now rewrite L.
Qed.

(** Rounding alone can bring the cut to 0: 49 characters of one token each,
    with a budget of 1 token, give [int(49 * (1 / 49))], and the product is
    the double just below 1. *)
Example cut_off_point_rounds_below_one :
  @cut_off_point char_tokenizer (py "gpt-4o") 1 (repeat 97%N 49) = Ret 0
  /\ forall fuel chunks,
       @force_split char_tokenizer (py "gpt-4o") 1 fuel (repeat 97%N 49) chunks = Timeout.
Proof.
  split; [vm_compute; reflexivity|].
  apply force_split_zero_cut; vm_compute; reflexivity.
Qed.

(** With a tokenizer whose counts never decrease when text is appended, the
    text with its newline fits the budget at each line end as soon as it
    fits at its end. *)
Lemma fits_when_monotone {tok : Tokenizer} (model : str) (max_tokens : Z) (text : str) :
  (forall p s, count model p <= count model (p ++ s)) ->
  count model (text ++ nl) <= max_tokens ->
  forall p s, (p ++ nl) ++ s = text ++ nl -> count model (p ++ nl) <= max_tokens.
Proof.
  intros Hmono Hfit p s E. specialize (Hmono (p ++ nl) s). rewrite E in Hmono. lia.
Qed.

(** ** The trace monad *)

Arguments py : simpl never.
Arguments str_of_nat : simpl never.

Lemma requests_app (tr1 tr2 : trace) : requests (tr1 ++ tr2) = requests tr1 ++ requests tr2.
Proof.
  induction tr1 as [|ev tr1 IH]; [reflexivity|].
  destruct ev; simpl; now rewrite IH.
Qed.

Lemma responses_app (tr1 tr2 : trace) :
  responses (tr1 ++ tr2) = responses tr1 ++ responses tr2.
Proof.
  induction tr1 as [|ev tr1 IH]; [reflexivity|].
  destruct ev; simpl; now rewrite IH.
Qed.

Lemma errors_app (tr1 tr2 : trace) : errors (tr1 ++ tr2) = (errors tr1 + errors tr2)%nat.
Proof.
  induction tr1 as [|ev tr1 IH]; [reflexivity|].
  destruct ev; simpl; now rewrite IH.
Qed.

Lemma failures_app (tr1 tr2 : trace) :
  failures (tr1 ++ tr2) = (failures tr1 + failures tr2)%nat.
Proof.
  induction tr1 as [|ev tr1 IH]; [reflexivity|].
  destruct ev as [| | | | |req [c|e|]]; simpl; now rewrite IH.
Qed.

Lemma progress_values_app (tr1 tr2 : trace) :
  progress_values (tr1 ++ tr2) = progress_values tr1 ++ progress_values tr2.
Proof.
  induction tr1 as [|ev tr1 IH]; [reflexivity|].
  destruct ev; simpl; now rewrite IH.
Qed.

Lemma for_each_cons {X S} (body : X -> S -> M S) (x : X) (xs : list X) (s : S) (tr : trace) :
  for_each body (x :: xs) s tr =
  match body x s tr with
  | (Ret s', tr') => for_each body xs s' tr'
  | (Raise e, tr') => (Raise e, tr')
  | (Timeout, tr') => (Timeout, tr')
  end.
Proof. reflexivity. Qed.

Lemma enumerate_cons {X} (k : nat) (x : X) (xs : list X) :
  combine (seq k (List.length (x :: xs))) (x :: xs)
  = (k, x) :: combine (seq (S k) (List.length xs)) xs.
Proof. reflexivity. Qed.

(** ** Joining replies *)

Lemma first_none_texts (parts : list (option str)) :
  forall i, first_none parts i = None -> parts = map Some (texts parts).
Proof.
  induction parts as [|[part|] parts IH]; intros i H; simpl in *.
  - reflexivity.
  - f_equal. now apply (IH (S i)).
  - discriminate.
Qed.

Lemma first_none_found (parts : list (option str)) :
  forall i j, first_none parts i = Some j -> In None parts.
Proof.
  induction parts as [|[part|] parts IH]; intros i j H; simpl in *.
  - discriminate.
  - right. now apply (IH (S i) j).
  - now left.
Qed.

Lemma first_none_texts_only (ss : list str) (i : nat) :
  first_none (map Some ss) i = None.
Proof. revert i; induction ss as [|s ss IH]; intros i; simpl; auto. Qed.

Lemma texts_map_some (ss : list str) : texts (map Some ss) = ss.
Proof. induction ss as [|s ss IH]; simpl; congruence. Qed.

(** Joining texts gives their [join]. *)
Lemma str_join_texts (sep : str) (ss : list str) :
  str_join sep (map Some ss) = Ret (join sep ss).
Proof. unfold str_join. now rewrite first_none_texts_only, texts_map_some. Qed.

(** What [str_join] gives: the join of texts, or [TypeError] at a [None]. *)
Lemma str_join_cases (sep : str) (parts : list (option str)) :
  (exists ss, parts = map Some ss /\ str_join sep parts = Ret (join sep ss))
  \/ (exists i, first_none parts 0 = Some i /\ In None parts
                /\ str_join sep parts = Raise (not_a_str i)).
Proof.
  unfold str_join. destruct (first_none parts 0) as [i|] eqn:E.
  - right. exists i. repeat split; auto. eapply first_none_found; eauto.
  - left. exists (texts parts). split; [|reflexivity]. eapply first_none_texts; eauto.
Qed.


(** ** Translation *)

Section TranslationFacts.

Context {tok : Tokenizer} {backend : Backend}.
Variable fuel : nat.
Variables model target_language : str.

(** One chunk: the content of the answer is appended, or the error is
    reported and the sentinel is appended; either way the loop goes on. *)
Lemma translate_chunk_run (page_num : nat) (chunk : str) (parts : list (option str))
  (tr : trace) :
  translate_chunk model target_language page_num chunk parts tr =
  let req := translation_request model target_language chunk in
  match chat_completions_create (requests tr) req with
  | Reply content => (Ret (parts ++ [Some content]), tr ++ [Request req (Reply content)])
  | NoContent => (Ret (parts ++ [None]), tr ++ [Request req NoContent])
  | Failure e =>
      (Ret (parts ++ [Some failed_part]),
       tr ++ [Request req (Failure e); Error (translation_error page_num e)])
  end.
Proof.
  unfold translate_chunk, try_except, bind, create, emit, ret. simpl.
  destruct (chat_completions_create _ _); simpl; try reflexivity.
  now rewrite <- app_assoc.
Qed.

(** The loop over the chunks of a page never stops early. *)
Lemma translate_chunks_any (page_num : nat) (chunks : list str) :
  forall parts tr, exists parts' evs,
    for_each (translate_chunk model target_language page_num) chunks parts tr
    = (Ret (parts ++ parts'), tr ++ evs)
    /\ List.length parts' = List.length chunks
    /\ requests evs = map (translation_request model target_language) chunks
    /\ errors evs = failures evs
    /\ progress_values evs = []
    /\ Forall from_backend (responses evs)
    /\ (In None parts' -> In NoContent (responses evs)).
Proof.
  induction chunks as [|chunk chunks IH]; intros parts tr.
  - exists [], []. simpl. unfold ret. rewrite !app_nil_r. repeat split; auto.
  - rewrite for_each_cons, translate_chunk_run. cbv zeta.
    set (req := translation_request model target_language chunk).
    destruct (chat_completions_create (requests tr) req) as [content|e|] eqn:A.
    + destruct (IH (parts ++ [Some content]) (tr ++ [Request req (Reply content)]))
        as (parts' & evs & E & L & Q & C & P & B & N).
      exists (Some content :: parts'), (Request req (Reply content) :: evs).
      rewrite E, <- !app_assoc. simpl. rewrite Q, C.
      repeat split; auto.
      * constructor; [|exact B]. exists (requests tr), req. now rewrite A.
      * intros [H|H]; [discriminate|]. right. auto.
    + destruct (IH (parts ++ [Some failed_part])
                  (tr ++ [Request req (Failure e); Error (translation_error page_num e)]))
        as (parts' & evs & E & L & Q & C & P & B & N).
      exists (Some failed_part :: parts'),
        (Request req (Failure e) :: Error (translation_error page_num e) :: evs).
      rewrite E, <- !app_assoc. simpl. rewrite Q, C.
      repeat split; auto.
      * constructor; [|exact B]. exists (requests tr), req. now rewrite A.
      * intros [H|H]; [discriminate|]. right. auto.
    + destruct (IH (parts ++ [None]) (tr ++ [Request req NoContent]))
        as (parts' & evs & E & L & Q & C & P & B & N).
      exists (None :: parts'), (Request req NoContent :: evs).
      rewrite E, <- !app_assoc. simpl. rewrite Q, C.
      repeat split; auto.
      constructor; [|exact B]. exists (requests tr), req. now rewrite A.
Qed.

Lemma translate_page_blank (total i : nat) (page_text : str) (all : list str) (tr : trace) :
  blank page_text = true ->
  translate_page fuel model target_language total (i, page_text) all tr
  = (Ret (all ++ [empty_page (i + 1)]),
     tr ++ [Progress (ratio i total) (page_progress (i + 1) total)]).
Proof.
  intros B. unfold translate_page. rewrite strip_blank, B. reflexivity.
Qed.

Lemma translate_page_chunks (total i : nat) (page_text : str) (all : list str) (tr : trace)
  (sub_chunks : list str) :
  blank page_text = false ->
  split_text_into_chunks model 2000 fuel page_text = Ret sub_chunks ->
  translate_page fuel model target_language total (i, page_text) all tr
  = match for_each (translate_chunk model target_language (i + 1)) sub_chunks []
            (tr ++ [Progress (ratio i total) (page_progress (i + 1) total)]) with
    | (Ret parts, tr') =>
        match str_join nl parts with
        | Ret translated_page => (Ret (all ++ [translated_page]), tr')
        | Raise e => (Raise e, tr')
        | Timeout => (Timeout, tr')
        end
    | (Raise e, tr') => (Raise e, tr')
    | (Timeout, tr') => (Timeout, tr')
    end.
Proof.
  intros B E. unfold translate_page. rewrite strip_blank, B.
  unfold bind, emit, lift, ret. rewrite E.
  destruct (for_each _ _ _ _) as [[parts| |] tr']; reflexivity.
Qed.

(** The loop over the pages, whatever the chunker and the backend do: it
    stops only where the chunker does not return or where an answer has no
    content, and it reports every failed request. *)
Lemma translate_pages_any (total : nat) (pages : list str) :
  forall k all tr, exists o evs,
    for_each (translate_page fuel model target_language total)
      (combine (seq k (List.length pages)) pages) all tr
    = (o, tr ++ evs)
    /\ errors evs = failures evs
    /\ Forall from_backend (responses evs)
    /\ match o with
       | Ret all' =>
           exists contents,
             all' = all ++ contents
             /\ List.length contents = List.length pages
             /\ progress_values evs = map (fun i => ratio i total) (seq k (List.length pages))
             /\ requests evs = flat_map (page_requests fuel model target_language) pages
             /\ forall i page, nth_error pages i = Some page ->
                  exists content,
                    nth_error contents i = Some content
                    /\ page_output fuel model (k + i) page content
       | Raise e =>
           (exists page, In page pages /\ blank page = false
                         /\ split_text_into_chunks model 2000 fuel page = Raise e)
           \/ (In NoContent (responses evs) /\ exists j, e = not_a_str j)
       | Timeout =>
           exists page, In page pages /\ blank page = false
                        /\ split_text_into_chunks model 2000 fuel page = Timeout
       end.
Proof.
  induction pages as [|page pages IH]; intros k all tr.
  - exists (Ret all), []. simpl. unfold ret. rewrite app_nil_r.
    repeat split; auto. exists []. rewrite app_nil_r. repeat split; auto.
    intros [|i] page H; discriminate.
  - rewrite enumerate_cons, for_each_cons.
    set (signal := Progress (ratio k total) (page_progress (k + 1) total)).
    destruct (blank page) eqn:B.
    + rewrite translate_page_blank by exact B. fold signal.
      destruct (IH (S k) (all ++ [empty_page (k + 1)]) (tr ++ [signal]))
        as (o & evs & E & C & F & O).
      exists o, (signal :: evs). rewrite E, <- app_assoc. simpl.
      split; [reflexivity|split; [exact C|split; [exact F|]]].
      destruct o as [all'|e|].
      * destruct O as (contents & -> & L & P & Q & O).
        exists (empty_page (k + 1) :: contents). rewrite <- app_assoc. simpl.
        unfold page_requests at 1. rewrite B, P, Q.
        repeat split; auto.
        intros [|i] p Hp; simpl in *.
        -- inversion Hp; subst. eexists; split; [reflexivity|].
           unfold page_output. rewrite B, Nat.add_0_r. reflexivity.
        -- destruct (O i p Hp) as (content & Hc & Ho). exists content.
           split; [exact Hc|]. now replace (k + S i)%nat with (S k + i)%nat by lia.
      * destruct O as [(p & I & O)|O]; [left|right; exact O].
        exists p. split; [now right|exact O].
      * destruct O as (p & I & O). exists p. split; [now right|exact O].
    + destruct (split_text_into_chunks model 2000 fuel page) as [chunks|e|] eqn:Ec.
      * rewrite (@translate_page_chunks total k page all tr chunks B Ec). fold signal.
        destruct (translate_chunks_any (k + 1) chunks [] (tr ++ [signal]))
          as (parts & evs1 & E1 & L1 & Q1 & C1 & P1 & F1 & N1).
        rewrite E1. simpl app.
        destruct (str_join_cases nl parts)
          as [(ss & -> & J)|(j & _ & Hn & J)]; rewrite J.
        -- destruct (IH (S k) (all ++ [join nl ss]) ((tr ++ [signal]) ++ evs1))
             as (o & evs & E & C & F & O).
           exists o, (signal :: evs1 ++ evs). rewrite E, <- !app_assoc. simpl.
           rewrite errors_app, failures_app, responses_app, C1, C.
           split; [reflexivity|split; [reflexivity|split]].
           { apply Forall_app; split; assumption. }
           destruct o as [all'|e|].
           ++ destruct O as (contents & -> & L & P & Q & O).
              exists (join nl ss :: contents). rewrite <- app_assoc. simpl.
              rewrite progress_values_app, requests_app, P1, P, Q1, Q.
              unfold page_requests at 2. rewrite B, Ec.
              repeat split; auto.
              intros [|i] p Hp; simpl in *.
              ** inversion Hp; subst. eexists; split; [reflexivity|].
                 unfold page_output. rewrite B. exists chunks, ss.
                 rewrite length_map in L1. repeat split; auto.
              ** destruct (O i p Hp) as (content & Hc & Ho). exists content.
                 split; [exact Hc|]. now replace (k + S i)%nat with (S k + i)%nat by lia.
           ++ destruct O as [(p & I & O)|(O & J')].
              ** left. exists p. split; [now right|exact O].
              ** right. split; [apply in_or_app; now right|exact J'].
           ++ destruct O as (p & I & O). exists p. split; [now right|exact O].
        -- exists (Raise (not_a_str j)), (signal :: evs1).
           rewrite <- app_assoc. simpl. repeat split; auto.
           right. split; [auto|now exists j].
      * exists (Raise e), [signal]. split.
        { unfold translate_page. rewrite strip_blank, B.
          unfold bind, emit, lift. fold signal. now rewrite Ec. }
        repeat split; auto. left. exists page. repeat split; auto. now left.
      * exists Timeout, [signal]. split.
        { unfold translate_page. rewrite strip_blank, B.
          unfold bind, emit, lift. fold signal. now rewrite Ec. }
        repeat split; auto. exists page. repeat split; auto. now left.
Qed.

End TranslationFacts.

(** A scripted backend always answers with a text when its script does. *)
Lemma scripted_always_text (script : list response) :
  ~ In NoContent script -> always_text (scripted script).
Proof.
  intros H history req A. unfold scripted in A. simpl in A.
  destruct (nth_in_or_default (List.length history) script (Reply (req_model req)))
    as [I|D].
  - rewrite A in I. contradiction.
  - rewrite A in D. discriminate.
Qed.

(** The section of each page output carries the number of its position. *)
Lemma page_sections_nth (contents : list str) :
  forall k i content,
    nth_error contents i = Some content ->
    nth_error (map page_section (combine (seq k (List.length contents)) contents)) i
    = Some (py "--- ページ " ++ str_of_nat (k + i + 1) ++ py " ---" ++ nl ++ nl ++ content).
Proof.
  induction contents as [|c contents IH]; intros k [|i] content H; simpl in *;
    try discriminate.
  - inversion H; subst. unfold page_section. simpl. now rewrite Nat.add_0_r.
  - rewrite (IH (S k) i content H).
    now replace (S k + i + 1)%nat with (k + S i + 1)%nat by lia.
Qed.

(** *** Empty input *)

(** C7.  [translate_page_by_page] on an empty page list returns the empty
    string and leaves the trace as it was: no backend request and no progress
    signal.  [summarize_text] on the empty text returns the empty string and
    leaves the trace as it was. *)
Theorem empty_input_is_silent {tok : Tokenizer} {backend : Backend}
  (fuel : nat) (model target_language custom_prompt : str) (tr : trace) :
  translate_page_by_page fuel [] model target_language tr = (Ret [], tr)
  /\ summarize_text fuel [] model custom_prompt tr = (Ret (Some []), tr).
Proof. split; reflexivity. Qed.

(** *** Blank pages *)

(** C8.  A page that is empty or holds only white space adds, as its output,
    the fixed placeholder [--- ページ N (内容は空でした) ---] with its page
    number [N = i + 1]; the only event of that page is its progress signal,
    so no backend request is issued for it, and the loop goes on with the
    remaining pages. *)
Theorem blank_page_short_circuits {tok : Tokenizer} {backend : Backend}
  (fuel : nat) (model target_language : str) (total i : nat) (page_text : str)
  (rest : list (nat * str)) (all_translated_pages : list str) (tr : trace) :
  blank page_text = true ->
  let signal := Progress (ratio i total) (page_progress (i + 1) total) in
  for_each (translate_page fuel model target_language total)
    ((i, page_text) :: rest) all_translated_pages tr
  = for_each (translate_page fuel model target_language total) rest
      (all_translated_pages
       ++ [py "--- ページ " ++ str_of_nat (i + 1) ++ py " (内容は空でした) ---"])
      (tr ++ [signal])
  /\ requests (tr ++ [signal]) = requests tr.
Proof.
  intros B signal. split.
  - rewrite for_each_cons, translate_page_blank by exact B. reflexivity.
  - rewrite requests_app. simpl. apply app_nil_r.
Qed.

Lemma blank_page_short_circuits_witness :
  let signal := Progress (ratio 0 2) (page_progress (0 + 1) 2) in
  for_each (@translate_page byte_tokenizer (scripted []) 0 (py "gpt-4o") (py "日本語") 2)
    [(0%nat, py "  " ++ nl); (1%nat, py "b")] [] []
  = for_each (@translate_page byte_tokenizer (scripted []) 0 (py "gpt-4o") (py "日本語") 2)
      [(1%nat, py "b")]
      ([] ++ [py "--- ページ " ++ str_of_nat (0 + 1) ++ py " (内容は空でした) ---"])
      ([] ++ [signal])
  /\ requests ([] ++ [signal]) = requests [].
Proof.
  apply (@blank_page_short_circuits byte_tokenizer (scripted []) 0 (py "gpt-4o") (py "日本語")
           2 0 (py "  " ++ nl) [(1%nat, py "b")] [] []).
  vm_compute. reflexivity.
Defined.

(** A document of one empty page: the placeholder under the page heading,
    and not one backend request. *)
Example empty_page_document :
  let run := @translate_page_by_page byte_tokenizer (scripted []) 0 [py ""]
               (py "gpt-4o") (py "日本語") [] in
  fst run = Ret (py "--- ページ 1 ---" ++ nl ++ nl ++ py "--- ページ 1 (内容は空でした) ---")
  /\ requests (snd run) = [].
Proof. split; vm_compute; reflexivity. Qed.

(** The placeholder of the twelfth page, letter by letter. *)
Example twelfth_page_placeholder :
  let run := for_each (@translate_page byte_tokenizer (scripted []) 0 (py "gpt-4o")
                         (py "日本語") 20) [(11%nat, py " ")] [] [] in
  fst run = Ret [py "--- ページ 12 (内容は空でした) ---"].
Proof. vm_compute. reflexivity. Qed.

(** *** A failed chunk *)

(** C5.  On a page cut into three chunks, when the backend answers the first
    and the third request and raises on the second, the page output is the
    three parts joined by newlines, the second being the fixed sentinel and
    the others the backend's replies; the error is reported, the third chunk
    is still sent, and the loop goes on with the remaining pages. *)
Theorem failed_chunk_is_replaced {tok : Tokenizer} {backend : Backend}
  (fuel : nat) (model target_language : str) (total i : nat) (page_text : str)
  (rest : list (nat * str)) (all_translated_pages : list str) (tr : trace)
  (c1 c2 c3 r1 r3 : str) (e : exn) :
  let q1 := translation_request model target_language c1 in
  let q2 := translation_request model target_language c2 in
  let q3 := translation_request model target_language c3 in
  blank page_text = false ->
  split_text_into_chunks model 2000 fuel page_text = Ret [c1; c2; c3] ->
  chat_completions_create (requests tr) q1 = Reply r1 ->
  chat_completions_create (requests tr ++ [q1]) q2 = Failure e ->
  chat_completions_create (requests tr ++ [q1; q2]) q3 = Reply r3 ->
  for_each (translate_page fuel model target_language total)
    ((i, page_text) :: rest) all_translated_pages tr
  = for_each (translate_page fuel model target_language total) rest
      (all_translated_pages ++ [join nl [r1; failed_part; r3]])
      (tr ++ [Progress (ratio i total) (page_progress (i + 1) total);
              Request q1 (Reply r1);
              Request q2 (Failure e);
              Error (translation_error (i + 1) e);
              Request q3 (Reply r3)]).
Proof.
  intros q1 q2 q3 B Ec A1 A2 A3.
  set (signal := Progress (ratio i total) (page_progress (i + 1) total)).
  assert (R1 : requests (tr ++ [signal]) = requests tr)
    by (rewrite requests_app; apply app_nil_r).
  assert (R2 : requests ((tr ++ [signal]) ++ [Request q1 (Reply r1)]) = requests tr ++ [q1])
    by (rewrite requests_app, R1; reflexivity).
  assert (R3 : requests (((tr ++ [signal]) ++ [Request q1 (Reply r1)])
                           ++ [Request q2 (Failure e); Error (translation_error (i + 1) e)])
               = requests tr ++ [q1; q2])
    by (rewrite requests_app, R2, <- app_assoc; reflexivity).
  rewrite for_each_cons, (@translate_page_chunks _ _ fuel model target_language total i
                            page_text all_translated_pages tr _ B Ec).
  fold signal.
  rewrite for_each_cons, translate_chunk_run. cbv zeta. fold q1. rewrite R1, A1.
  rewrite for_each_cons, translate_chunk_run. cbv zeta. fold q2. rewrite R2, A2.
  rewrite for_each_cons, translate_chunk_run. cbv zeta. fold q3. rewrite R3, A3.
  simpl for_each. unfold ret. simpl app.
  pose proof (str_join_texts nl [r1; failed_part; r3]) as J. simpl map in J. rewrite J.
  now rewrite <- !app_assoc.
Qed.

Lemma failed_chunk_is_replaced_witness :
  let backend := scripted [Reply (py "A"); Failure (BackendError (py "rate limit")); Reply (py "C")] in
  let line := repeat 97%N 1500 in
  let page_text := line ++ nl ++ line ++ nl ++ line in
  let q := @translation_request (py "gpt-4o") (py "日本語") (line ++ nl) in
  for_each (@translate_page byte_tokenizer backend 0 (py "gpt-4o") (py "日本語") 1)
    [(0%nat, page_text)] [] []
  = for_each (@translate_page byte_tokenizer backend 0 (py "gpt-4o") (py "日本語") 1) []
      ([] ++ [join nl [py "A"; failed_part; py "C"]])
      ([] ++ [Progress (ratio 0 1) (page_progress (0 + 1) 1);
              Request q (Reply (py "A"));
              Request q (Failure (BackendError (py "rate limit")));
              Error (translation_error (0 + 1) (BackendError (py "rate limit")));
              Request q (Reply (py "C"))]).
Proof.
  intros backend line page_text q.
  apply (@failed_chunk_is_replaced byte_tokenizer backend 0 (py "gpt-4o") (py "日本語")
           1 0 page_text [] [] [] (line ++ nl) (line ++ nl) (line ++ nl)
           (py "A") (py "C") (BackendError (py "rate limit")));
    vm_compute; reflexivity.
Defined.

(** *** Page order *)

(** C6.  For a non-empty list of [n] pages, the string that
    [translate_page_by_page] returns is [n] sections joined by blank lines,
    one per page and in page order.  The section of the page at position [i]
    is the heading [--- ページ N ---] with [N = i + 1], a blank line, and the
    page output; the output of an empty or white-space page is the
    placeholder [--- ページ N (内容は空でした) ---], and that of any other page
    is one part per chunk of that page, joined by newlines: no page is
    dropped and the numbering is that of the input.  The backend is asked
    page after page, and within a page chunk after chunk.  The function does
    return when the chunker returns on each non-blank page and the backend's
    answers all carry a text. *)
Theorem pages_keep_order {tok : Tokenizer} {backend : Backend}
  (fuel : nat) (pages_text : list str) (model target_language : str) (tr : trace) :
  pages_text <> [] ->
  let run := translate_page_by_page fuel pages_text model target_language tr in
  (forall translated,
      fst run = Ret translated ->
      exists sections,
        translated = join (nl ++ nl ++ nl) sections
        /\ List.length sections = List.length pages_text
        /\ (forall i page, nth_error pages_text i = Some page ->
              exists content,
                nth_error sections i
                = Some (py "--- ページ " ++ str_of_nat (i + 1) ++ py " ---"
                        ++ nl ++ nl ++ content)
                /\ if blank page
                   then content
                        = py "--- ページ " ++ str_of_nat (i + 1) ++ py " (内容は空でした) ---"
                   else exists chunks parts,
                       split_text_into_chunks model 2000 fuel page = Ret chunks
                       /\ List.length parts = List.length chunks
                       /\ content = join nl parts)
        /\ requests (snd run)
           = requests tr ++ flat_map (page_requests fuel model target_language) pages_text)
  /\ ((forall page, In page pages_text -> blank page = false ->
         exists chunks, split_text_into_chunks model 2000 fuel page = Ret chunks) ->
      always_text backend ->
      exists translated, fst run = Ret translated).
Proof.
  intros Hne run.
  set (opening := ProgressBar 0 (py "翻訳の準備をしています...")).
  destruct (@translate_pages_any _ _ fuel model target_language (List.length pages_text)
              pages_text 0%nat [] (tr ++ [opening]))
    as (o & evs & E & _ & F & O).
  assert (R : run = match o with
                    | Ret all =>
                        (Ret (join (nl ++ nl ++ nl) (map page_section (enumerate all))),
                         tr ++ opening :: evs ++ [Progress 1 (py "翻訳完了！"); ProgressEmpty])
                    | Raise e => (Raise e, tr ++ opening :: evs)
                    | Timeout => (Timeout, tr ++ opening :: evs)
                    end).
  { subst run. destruct pages_text as [|page pages]; [congruence|].
    unfold translate_page_by_page, enumerate, bind, emit, ret. fold opening.
    rewrite E. destruct o; simpl app; now rewrite <- !app_assoc. }
  split.
  - intros translated Hr. rewrite R in Hr |- *.
    destruct o as [all|e|]; simpl in Hr; try discriminate.
    inversion Hr; subst translated; clear Hr.
    destruct O as (contents & -> & L & _ & Q & P). simpl app.
    exists (map page_section (enumerate contents)).
    split; [reflexivity|split; [|split]].
    + unfold enumerate. rewrite length_map, length_combine, length_seq, L. lia.
    + intros i page Hp. destruct (P i page Hp) as (content & Hc & Ho).
      exists content. split.
      * unfold enumerate. now rewrite (page_sections_nth contents 0 i Hc).
      * exact Ho.
    + simpl snd. rewrite requests_app. f_equal. simpl.
      rewrite requests_app, Q. simpl. apply app_nil_r.
  - intros Hsplit Htext. rewrite R.
    destruct o as [all|e|].
    + eexists; reflexivity.
    + exfalso. destruct O as [(page & I & B & Ec)|(N & _)].
      * destruct (Hsplit page I B) as (chunks & Ec'). congruence.
      * rewrite Forall_forall in F. destruct (F _ N) as (history & req & A).
        exact (Htext history req (eq_sym A)).
    + exfalso. destruct O as (page & I & B & Ec).
      destruct (Hsplit page I B) as (chunks & Ec'). congruence.
Qed.

Lemma pages_keep_order_witness :
  let pages := [py "a"; py " "; py "b"] in
  let backend := scripted [Reply (py "A"); Failure (BackendError (py "rate limit"))] in
  let run := @translate_page_by_page byte_tokenizer backend 0 pages
               (py "gpt-4o") (py "日本語") [] in
  exists translated sections,
    fst run = Ret translated
    /\ translated = join (nl ++ nl ++ nl) sections
    /\ List.length sections = List.length pages
    /\ requests (snd run)
       = requests []
         ++ flat_map (@page_requests byte_tokenizer 0 (py "gpt-4o") (py "日本語")) pages.
Proof.
  intros pages backend run.
  assert (Hne : pages <> []) by discriminate.
  destruct (@pages_keep_order byte_tokenizer backend 0 pages (py "gpt-4o") (py "日本語")
              [] Hne) as [A B].
  destruct B as [translated Hr].
  - intros page [<-|[<-|[<-|[]]]] _; eexists; vm_compute; reflexivity.
  - apply scripted_always_text. intros [H|[H|[]]]; discriminate.
  - destruct (A translated Hr) as (sections & J & L & _ & Q).
    exists translated, sections. auto.
Defined.

(** The document of the three pages ["a"], [" "], ["b"], with a backend that
    answers ["A"] and then fails: three sections, numbered 1 to 3. *)
Example three_pages_document :
  fst (@translate_page_by_page byte_tokenizer
         (scripted [Reply (py "A"); Failure (BackendError (py "rate limit"))])
         0 [py "a"; py " "; py "b"] (py "gpt-4o") (py "日本語") [])
  = Ret (py "--- ページ 1 ---" ++ nl ++ nl ++ py "A" ++ nl ++ nl ++ nl
         ++ py "--- ページ 2 ---" ++ nl ++ nl ++ py "--- ページ 2 (内容は空でした) ---"
         ++ nl ++ nl ++ nl
         ++ py "--- ページ 3 ---" ++ nl ++ nl ++ py "--- エラー：この部分の翻訳に失敗しました ---").
Proof. vm_compute. reflexivity. Qed.

(** A backend that answers without a text stops the translation: joining the
    parts of the page raises, outside any handler. *)
Example answer_without_content_stops_translation :
  fst (@translate_page_by_page byte_tokenizer (scripted [NoContent]) 0 [py "a"]
         (py "gpt-4o") (py "日本語") [])
  = Raise (TypeError (py "sequence item 0: expected str instance, NoneType found")).
Proof. vm_compute. reflexivity. Qed.

(** ** Summarisation *)



Lemma no_failure_among_answers (contents : list (option str)) (e : exn) :
  ~ In (Failure e) (map answer contents).
Proof.
  induction contents as [|[s|] l IH]; simpl; [tauto| |];
    intros [H|H]; try discriminate; tauto.
Qed.

Lemma only_texts_among_replies (summaries : list str) :
  ~ In NoContent (map Reply summaries).
Proof. induction summaries as [|s l IH]; simpl; [tauto|]. intros [H|H]; [discriminate|tauto]. Qed.

(** As many answers as requests. *)
Lemma responses_length (tr : trace) : List.length (responses tr) = List.length (requests tr).
Proof. induction tr as [|ev tr IH]; [reflexivity|]. destruct ev; simpl; congruence. Qed.

Section SummaryFacts.

Context {tok : Tokenizer} {backend : Backend}.
Variable fuel : nat.
Variables model custom_prompt : str.

(** One map-phase step: the content of the answer is collected and progress
    is signalled, or the exception leaves the loop. *)
Lemma summarize_chunk_run (total i : nat) (chunk : str) (acc : list (option str))
  (tr : trace) :
  summarize_chunk model total (i, chunk) acc tr =
  let req := part_request model chunk in
  match chat_completions_create (requests tr) req with
  | Reply content =>
      (Ret (acc ++ [Some content]),
       tr ++ [Request req (Reply content);
              Progress (ratio (i + 1) total) (part_done (i + 1) total)])
  | NoContent =>
      (Ret (acc ++ [None]),
       tr ++ [Request req NoContent;
              Progress (ratio (i + 1) total) (part_done (i + 1) total)])
  | Failure e => (Raise e, tr ++ [Request req (Failure e)])
  end.
Proof.
  unfold summarize_chunk, bind, create, emit, ret. simpl.
  destruct (chat_completions_create _ _); try reflexivity;
    now rewrite <- app_assoc.
Qed.

(** The map phase either collects one content per chunk, in chunk order, or
    stops at the first request that raises. *)
Lemma map_phase_run (total : nat) (chunks : list str) :
  forall k acc tr,
    (exists contents mevs,
        for_each (summarize_chunk model total) (combine (seq k (List.length chunks)) chunks) acc tr
        = (Ret (acc ++ contents), tr ++ mevs)
        /\ requests mevs = map (part_request model) chunks
        /\ responses mevs = map answer contents
        /\ errors mevs = 0%nat
        /\ failures mevs = 0%nat)
    \/ (exists e j contents mevs,
        for_each (summarize_chunk model total) (combine (seq k (List.length chunks)) chunks) acc tr
        = (Raise e, tr ++ mevs)
        /\ (j < List.length chunks)%nat
        /\ requests mevs = map (part_request model) (firstn (S j) chunks)
        /\ responses mevs = map answer contents ++ [Failure e]
        /\ errors mevs = 0%nat
        /\ failures mevs = 1%nat).
Proof.
  induction chunks as [|chunk chunks IH]; intros k acc tr.
  - left. exists [], []. simpl. unfold ret. now rewrite !app_nil_r.
  - rewrite enumerate_cons, for_each_cons, summarize_chunk_run. cbv zeta.
    destruct (chat_completions_create _ _) as [content|e|].
    + set (evs := [Request (part_request model chunk) (Reply content);
                   Progress (ratio (k + 1) total) (part_done (k + 1) total)]).
      destruct (IH (S k) (acc ++ [Some content]) (tr ++ evs))
        as [(contents & mevs & E & Q & R & C & F)
           |(e & j & contents & mevs & E & J & Q & R & C & F)].
      * left. exists (Some content :: contents), (evs ++ mevs).
        rewrite E, <- !app_assoc, requests_app, responses_app, errors_app, failures_app,
          Q, R, C, F. now simpl.
      * right. exists e, (S j), (Some content :: contents), (evs ++ mevs).
        rewrite E, <- !app_assoc, requests_app, responses_app, errors_app, failures_app,
          Q, R, C, F. simpl.
        repeat split; auto. lia.
    + right. exists e, 0%nat, [], [Request (part_request model chunk) (Failure e)].
      simpl. repeat split; auto. lia.
    + set (evs := [Request (part_request model chunk) NoContent;
                   Progress (ratio (k + 1) total) (part_done (k + 1) total)]).
      destruct (IH (S k) (acc ++ [None]) (tr ++ evs))
        as [(contents & mevs & E & Q & R & C & F)
           |(e & j & contents & mevs & E & J & Q & R & C & F)].
      * left. exists (None :: contents), (evs ++ mevs).
        rewrite E, <- !app_assoc, requests_app, responses_app, errors_app, failures_app,
          Q, R, C, F. now simpl.
      * right. exists e, (S j), (None :: contents), (evs ++ mevs).
        rewrite E, <- !app_assoc, requests_app, responses_app, errors_app, failures_app,
          Q, R, C, F. simpl.
        repeat split; auto. lia.
Qed.




End SummaryFacts.

(** *** Map before reduce *)



(** Three chunks and a backend that answers every request: three map
    requests, then the reduce request, which carries the three summaries
    joined by newlines. *)
Example map_then_reduce :
  let line := repeat 97%N 1500 in
  let run := @summarize_text byte_tokenizer
               (scripted [Reply (py "A"); Reply (py "B"); Reply (py "C"); Reply (py "ABC")])
               0 (line ++ nl ++ line ++ nl ++ line) (py "gpt-4o") (py "要点を三行で") [] in
  requests (snd run)
  = [part_request (py "gpt-4o") (line ++ nl);
     part_request (py "gpt-4o") (line ++ nl);
     part_request (py "gpt-4o") (line ++ nl);
     final_request (py "gpt-4o") (py "要点を三行で") (py "A" ++ nl ++ py "B" ++ nl ++ py "C")].
Proof. vm_compute. reflexivity. Qed.

(** *** All or nothing *)




(** The same text with a backend that answers every request: the summary is
    the reply to the fourth request, the reduce request; and with a backend
    that fails on the second request: the summary is empty. *)
Example summary_runs :
  let line := repeat 97%N 1500 in
  let text := line ++ nl ++ line ++ nl ++ line in
  fst (@summarize_text byte_tokenizer
         (scripted [Reply (py "A"); Reply (py "B"); Reply (py "C"); Reply (py "ABC")])
         0 text (py "gpt-4o") (py "要点を三行で") []) = Ret (Some (py "ABC"))
  /\ fst (@summarize_text byte_tokenizer
            (scripted [Reply (py "A"); Failure (BackendError (py "rate limit"))])
            0 text (py "gpt-4o") (py "要点を三行で") []) = Ret (Some []).
Proof. split; vm_compute; reflexivity. Qed.
(** * Further properties *)

(** ** The chunker, continued *)

Lemma render_lines_snoc (group : list str) (line : str) :
  render_lines (group ++ [line]) = render_lines group ++ line ++ [newline].
Proof.
  unfold render_lines. rewrite map_app, concat_app. simpl. now rewrite app_nil_r.
Qed.

Lemma render_lines_truthy (group : list str) :
  group <> [] -> truthy (render_lines group) = true.
Proof.
  destruct group as [|line group]; [congruence|]. intros _.
  unfold render_lines. simpl. now destruct line.
Qed.

Section ChunkerMore.

Context {tok : Tokenizer}.
Variable model : str.
Variable max_tokens : Z.

(** A cut that leaves the line as it was is computed again and again. *)
Lemma force_split_stuck (sentence : str) (cut : Z) :
  max_tokens < count model sentence ->
  cut_off_point model max_tokens sentence = Ret cut ->
  slice_from cut sentence = sentence ->
  forall fuel chunks, force_split model max_tokens fuel sentence chunks = Timeout.
Proof.
  intros Hgt Hcut Hsame. induction fuel as [|fuel IH]; intros chunks;
    rewrite force_split_unfold;
    destruct (Z.ltb_spec max_tokens (count model sentence)); try lia; [reflexivity|].
  rewrite Hcut. simpl obind. rewrite Hsame. apply IH.
Qed.

Lemma force_split_nonempty (fuel : nat) :
  forall sentence chunks chunks' rest,
    Forall (fun c => c <> []) chunks ->
    force_split model max_tokens fuel sentence chunks = Ret (chunks', rest) ->
    Forall (fun c => c <> []) chunks'.
Proof.
  induction fuel as [|fuel IH]; intros sentence chunks chunks' rest Hc;
    rewrite force_split_unfold;
    destruct (Z.ltb_spec max_tokens (count model sentence)) as [Hgt|Hle];
    try discriminate; try (intros H; inversion H; subst; assumption).
  destruct (cut_off_point model max_tokens sentence) as [cut| |] eqn:Ecut;
    simpl; try discriminate.
  destruct (slice_to cut sentence) as [|c p] eqn:Ep.
  - assert (Hsame : slice_from cut sentence = sentence).
    { pose proof (slice_to_from cut sentence) as H. now rewrite Ep in H. }
    rewrite Hsame, (force_split_stuck Hgt Ecut Hsame). discriminate.
  - apply IH. apply Forall_app; split; [assumption|].
    constructor; [discriminate|constructor].
Qed.

Lemma flush_nonempty (chunks : list str) (current : str) :
  Forall (fun c => c <> []) chunks -> Forall (fun c => c <> []) (flush chunks current).
Proof.
  intros Hc. unfold flush. destruct current as [|c s]; simpl; [assumption|].
  apply Forall_app; split; [assumption|]. constructor; [discriminate|constructor].
Qed.

Lemma accumulate_nonempty (fuel : nat) (sentences : list str) :
  forall chunks current chunks' current',
    Forall (fun c => c <> []) chunks ->
    accumulate model max_tokens fuel sentences chunks current = Ret (chunks', current') ->
    Forall (fun c => c <> []) chunks'.
Proof.
  induction sentences as [|sentence rest IH]; intros chunks current chunks' current' Hc; simpl.
  - intros H; inversion H; subst; assumption.
  - destruct (count model (current ++ sentence ++ [newline]) <=? max_tokens).
    + now apply IH.
    + destruct (force_split model max_tokens fuel sentence (flush chunks current))
        as [[chunks1 sentence1]| |] eqn:E; simpl; try discriminate.
      apply IH. eapply force_split_nonempty; [|exact E]. now apply flush_nonempty.
Qed.

Lemma accumulate_current (fuel : nat) (sentences : list str) :
  forall chunks current chunks' current',
    accumulate model max_tokens fuel sentences chunks current = Ret (chunks', current') ->
    (sentences = [] /\ current' = current) \/ exists body, current' = body ++ nl.
Proof.
  induction sentences as [|sentence rest IH]; intros chunks current chunks' current'; simpl.
  - intros H; inversion H. now left.
  - intros H. right.
    destruct (count model (current ++ sentence ++ [newline]) <=? max_tokens).
    + apply IH in H. destruct H as [[_ ->]|H]; [|exact H].
      exists (current ++ sentence). unfold nl. now rewrite <- app_assoc.
    + destruct (force_split model max_tokens fuel sentence (flush chunks current))
        as [[chunks1 sentence1]| |] eqn:E; simpl in H; try discriminate.
      apply IH in H. destruct H as [[_ ->]|H]; [|exact H].
      now exists sentence1.
Qed.

(** A line within the budget is never cut. *)
Lemma force_split_fits (fuel : nat) (sentence : str) (chunks : list str) :
  count model sentence <= max_tokens ->
  force_split model max_tokens fuel sentence chunks = Ret (chunks, sentence).
Proof.
  intros H. rewrite force_split_unfold.
  destruct (Z.ltb_spec max_tokens (count model sentence)); [lia|reflexivity].
Qed.

Lemma greedy_extend (groups : list (list str)) (group : list str) (line : str) :
  group <> [] ->
  greedy_groups model max_tokens (groups ++ [group]) ->
  greedy_groups model max_tokens (groups ++ [group ++ [line]]).
Proof.
  intros Hg. induction groups as [|g0 gs IH]; simpl.
  - auto.
  - intros [H1 H2]. split; [|now apply IH].
    destruct gs as [|g1 gs']; simpl in *; [|exact H1].
    now destruct group.
Qed.

Lemma greedy_close (groups : list (list str)) (group : list str) (line : str) :
  max_tokens < count model (render_lines (group ++ [line])) ->
  greedy_groups model max_tokens (groups ++ [group]) ->
  greedy_groups model max_tokens ((groups ++ [group]) ++ [[line]]).
Proof.
  intros Hgt. induction groups as [|g0 gs IH]; simpl.
  - auto.
  - intros [H1 H2]. split; [|now apply IH].
    destruct gs as [|g1 gs']; simpl in *; exact H1.
Qed.

(** The loop over lines that all fit: the chunks closed so far and the open
    buffer are groups of whole lines, closed as late as the budget allows. *)
Lemma accumulate_groups (fuel : nat) (sentences : list str) :
  (forall line, In line sentences -> count model line <= max_tokens) ->
  forall groups group,
    group <> [] ->
    Forall (fun g => g <> [] /\ fits_or_single model max_tokens g) (groups ++ [group]) ->
    greedy_groups model max_tokens (groups ++ [group]) ->
    exists groups' group',
      accumulate model max_tokens fuel sentences (map render_lines groups) (render_lines group)
      = Ret (map render_lines groups', render_lines group')
      /\ List.concat (groups' ++ [group']) = List.concat (groups ++ [group]) ++ sentences
      /\ Forall (fun g => g <> [] /\ fits_or_single model max_tokens g) (groups' ++ [group'])
      /\ greedy_groups model max_tokens (groups' ++ [group']).
Proof.
  induction sentences as [|sentence rest IH]; intros Hfit groups group Hg Hb Hgr.
  - exists groups, group. simpl. rewrite app_nil_r. auto.
  - simpl accumulate.
    assert (Hrest : forall line, In line rest -> count model line <= max_tokens)
      by (intros; apply Hfit; now right).
    rewrite <- render_lines_snoc.
    destruct (Z.leb_spec (count model (render_lines (group ++ [sentence]))) max_tokens)
      as [Hle|Hgt].
    + destruct (IH Hrest groups (group ++ [sentence])) as (gs' & g' & E & C & B & G).
      * now destruct group.
      * apply Forall_app in Hb. destruct Hb as [Hb _].
        apply Forall_app; split; [exact Hb|].
        constructor; [|constructor]. split; [now destruct group|now left].
      * now apply greedy_extend.
      * exists gs', g'. rewrite E, C. repeat split; auto.
        rewrite !concat_app. simpl. rewrite !app_nil_r, <- !app_assoc. reflexivity.
    + unfold flush. rewrite render_lines_truthy by exact Hg.
      rewrite force_split_fits by (apply Hfit; now left). simpl obind.
      replace (sentence ++ [newline]) with (render_lines [sentence])
        by (unfold render_lines; simpl; now rewrite app_nil_r).
      replace (map render_lines groups ++ [render_lines group])
        with (map render_lines (groups ++ [group])) by (now rewrite map_app).
      destruct (IH Hrest (groups ++ [group]) [sentence]) as (gs' & g' & E & C & B & G).
      * discriminate.
      * apply Forall_app; split; [exact Hb|].
        constructor; [|constructor]. split; [discriminate|right; now exists sentence].
      * now apply greedy_close.
      * exists gs', g'. rewrite E, C. repeat split; auto.
        rewrite !concat_app. simpl. rewrite !app_nil_r, <- !app_assoc. reflexivity.
Qed.

End ChunkerMore.

(** X1.  Whenever [split_text_into_chunks] returns, it returns at least one
    chunk, and the last chunk ends with a newline: also for the empty text,
    and whatever the budget. *)
Theorem split_last_chunk_newline {tok : Tokenizer} (model : str) (max_tokens : Z)
  (fuel : nat) (text : str) (chunks : list str) :
  split_text_into_chunks model max_tokens fuel text = Ret chunks ->
  exists init body, chunks = init ++ [body ++ nl].
Proof.
  unfold split_text_into_chunks.
  destruct (accumulate model max_tokens fuel (split_lines text) [] [])
    as [[chunks1 current]| |] eqn:E; simpl; try discriminate.
  intros H; inversion H; subst.
  apply accumulate_current in E. destruct E as [[E _]|[body ->]].
  - now destruct (split_lines_nonempty text).
  - exists chunks1, body. unfold flush.
    replace (truthy (body ++ nl)) with true by (now destruct body). reflexivity.
Qed.

Lemma split_last_chunk_newline_witness :
  exists init body, [py "ああa"; py "aaa" ++ nl] = init ++ [body ++ nl].
Proof.
  apply (@split_last_chunk_newline byte_tokenizer (py "gpt-4o") 5 10 (py "ああaaaa")).
  vm_compute. reflexivity.
Defined.

(** X2.  No chunk [split_text_into_chunks] returns is empty: a cut that
    yields an empty prefix leaves the line as it was, and then the loop does
    not end. *)
Theorem split_chunks_nonempty {tok : Tokenizer} (model : str) (max_tokens : Z)
  (fuel : nat) (text : str) (chunks : list str) :
  split_text_into_chunks model max_tokens fuel text = Ret chunks ->
  Forall (fun chunk => chunk <> []) chunks.
Proof.
  unfold split_text_into_chunks.
  destruct (accumulate model max_tokens fuel (split_lines text) [] [])
    as [[chunks1 current]| |] eqn:E; simpl; try discriminate.
  intros H; inversion H; subst.
  apply flush_nonempty. eapply accumulate_nonempty; [|exact E]. constructor.
Qed.

Lemma split_chunks_nonempty_witness :
  Forall (fun chunk : str => chunk <> [])
    [py "aaaaa"; py "aaaaa"; py "aaaaa"; py "aaaaa"; py "aaaaa" ++ nl].
Proof.
  apply (@split_chunks_nonempty byte_tokenizer (py "gpt-4o") 5 25
           (py "aaaaaaaaaaaaaaaaaaaaaaaaa")).
  vm_compute. reflexivity.
Defined.

(** X3.  When every line of the text is within the budget, the chunker
    returns without entering the force-split loop, and no line is cut: the
    chunks are consecutive groups of whole lines, each line followed by its
    newline, covering all the lines of the text in order.  A chunk of two or
    more lines is within the budget, and a chunk is closed only when the next
    line, with its newline, did not fit into it. *)
Theorem lines_within_budget_stay_whole {tok : Tokenizer} (model : str) (max_tokens : Z)
  (fuel : nat) (text : str) :
  (forall line, In line (split_lines text) -> count model line <= max_tokens) ->
  exists groups,
    split_text_into_chunks model max_tokens fuel text = Ret (map render_lines groups)
    /\ List.concat groups = split_lines text
    /\ Forall (fun group => group <> [] /\ fits_or_single model max_tokens group) groups
    /\ greedy_groups model max_tokens groups.
Proof.
  intros Hfit. unfold split_text_into_chunks.
  destruct (split_lines text) as [|first rest] eqn:Es.
  { now destruct (split_lines_nonempty text). }
  assert (Hrest : forall line, In line rest -> count model line <= max_tokens)
    by (intros; apply Hfit; now right).
  destruct (@accumulate_groups _ model max_tokens fuel rest Hrest [] [first])
    as (gs & g & E & C & B & G).
  - discriminate.
  - constructor; [|constructor]. split; [discriminate|right; now exists first].
  - simpl. auto.
  - assert (S1 : accumulate model max_tokens fuel (first :: rest) [] []
                 = Ret (map render_lines gs, render_lines g)).
    { simpl accumulate. simpl ([] ++ first ++ [newline]).
      replace (first ++ [newline]) with (render_lines [first])
        by (unfold render_lines; simpl; now rewrite app_nil_r).
      destruct (count model (render_lines [first]) <=? max_tokens); [exact E|].
      unfold flush. simpl truthy. cbv iota.
      rewrite force_split_fits by (apply Hfit; now left). simpl obind.
      replace (first ++ [newline]) with (render_lines [first])
        by (unfold render_lines; simpl; now rewrite app_nil_r).
      exact E. }
    rewrite S1. simpl obind. exists (gs ++ [g]).
    assert (Hg : g <> []).
    { apply Forall_app in B. destruct B as [_ B]. inversion B; subst. tauto. }
    unfold flush. rewrite render_lines_truthy by exact Hg.
    rewrite map_app. simpl. repeat split; auto.
Qed.

Lemma lines_within_budget_stay_whole_witness :
  exists groups,
    @split_text_into_chunks byte_tokenizer (py "gpt-4o") 12 0
      (py "Hello world" ++ nl ++ py "Line two" ++ nl ++ py "Line three")
    = Ret (map render_lines groups)
    /\ List.concat groups
       = split_lines (py "Hello world" ++ nl ++ py "Line two" ++ nl ++ py "Line three")
    /\ Forall (fun group => group <> []
                 /\ @fits_or_single byte_tokenizer (py "gpt-4o") 12 group) groups
    /\ @greedy_groups byte_tokenizer (py "gpt-4o") 12 groups.
Proof.
  apply (@lines_within_budget_stay_whole byte_tokenizer (py "gpt-4o") 12 0
           (py "Hello world" ++ nl ++ py "Line two" ++ nl ++ py "Line three")).
  intros line H. vm_compute in H.
  destruct H as [<-|[<-|[<-|[]]]]; vm_compute; discriminate.
Defined.

(** ** The tokenizer library *)

Lemma cut_off_point_ext {tok1 tok2 : Tokenizer} (m1 m2 : str) (max_tokens : Z) (s : str) :
  @count tok1 m1 s = @count tok2 m2 s ->
  @cut_off_point tok1 m1 max_tokens s = @cut_off_point tok2 m2 max_tokens s.
Proof. unfold cut_off_point. now intros ->. Qed.

(** The chunker sees the tokenizer and the model through the counts alone. *)
Lemma split_text_into_chunks_ext {tok1 tok2 : Tokenizer} (m1 m2 : str) (max_tokens : Z)
  (fuel : nat) (text : str) :
  (forall s, @count tok1 m1 s = @count tok2 m2 s) ->
  @split_text_into_chunks tok1 m1 max_tokens fuel text
  = @split_text_into_chunks tok2 m2 max_tokens fuel text.
Proof.
  intros Hc.
  assert (F : forall fuel' s chunks,
             @force_split tok1 m1 max_tokens fuel' s chunks
             = @force_split tok2 m2 max_tokens fuel' s chunks).
  { induction fuel' as [|fuel' IH]; intros s chunks;
      rewrite !force_split_unfold, Hc; [reflexivity|].
    rewrite (cut_off_point_ext m1 m2 max_tokens s (Hc s)).
    destruct (max_tokens <? count m2 s); [|reflexivity].
    destruct (cut_off_point m2 max_tokens s); simpl; auto. }
  assert (A : forall sentences chunks current,
             @accumulate tok1 m1 max_tokens fuel sentences chunks current
             = @accumulate tok2 m2 max_tokens fuel sentences chunks current).
  { induction sentences as [|sentence rest IH]; intros chunks current; simpl; [reflexivity|].
    rewrite Hc, F.
    destruct (count m2 (current ++ sentence ++ [newline]) <=? max_tokens); [apply IH|].
    destruct (force_split m2 max_tokens fuel sentence (flush chunks current))
      as [[c s]| |]; simpl; auto. }
  unfold split_text_into_chunks. now rewrite A.
Qed.

(** X4.  [get_token_count] falls back on the default encoding for a model
    name the tokenizer library does not know, so two unknown model names
    give the same chunks, whatever the text and the budget. *)
Theorem unknown_models_chunk_alike (lib : Tiktoken.library) (model1 model2 : str)
  (max_tokens : Z) (fuel : nat) (text : str) :
  Tiktoken.encoding_for_model lib model1 = None ->
  Tiktoken.encoding_for_model lib model2 = None ->
  @split_text_into_chunks (Tiktoken.tokenizer lib) model1 max_tokens fuel text
  = @split_text_into_chunks (Tiktoken.tokenizer lib) model2 max_tokens fuel text.
Proof.
  intros H1 H2. apply split_text_into_chunks_ext. intros s.
  unfold count. simpl. unfold Tiktoken.get_token_count. now rewrite H1, H2.
Qed.

Lemma unknown_models_chunk_alike_witness :
  @split_text_into_chunks (Tiktoken.tokenizer Tiktoken.sample) (py "gpt-5") 5 10 (py "ああaaaa")
  = @split_text_into_chunks (Tiktoken.tokenizer Tiktoken.sample) (py "my-model") 5 10
      (py "ああaaaa").
Proof.
  apply (@unknown_models_chunk_alike Tiktoken.sample (py "gpt-5") (py "my-model") 5 10
           (py "ああaaaa")); vm_compute; reflexivity.
Defined.

(** ** Translation, continued *)

(** How the whole run of [translate_page_by_page] follows from the loop. *)
Lemma translate_page_by_page_any {tok : Tokenizer} {backend : Backend}
  (fuel : nat) (pages_text : list str) (model target_language : str) (tr : trace) :
  pages_text <> [] ->
  exists o evs,
    translate_page_by_page fuel pages_text model target_language tr = (o, tr ++ evs)
    /\ errors evs = failures evs
    /\ match o with
       | Ret translated =>
           (exists rest, translated = py "--- ページ 1 ---" ++ nl ++ nl ++ rest)
           /\ progress_values evs
              = map (fun i => ratio i (List.length pages_text))
                  (seq 0 (List.length pages_text)) ++ [1%Q]
       | Raise e =>
           (exists page, In page pages_text /\ blank page = false
                         /\ split_text_into_chunks model 2000 fuel page = Raise e)
           \/ (In NoContent (responses evs) /\ exists j, e = not_a_str j)
       | Timeout =>
           exists page, In page pages_text /\ blank page = false
                        /\ split_text_into_chunks model 2000 fuel page = Timeout
       end.
Proof.
  intros Hne.
  set (opening := ProgressBar 0 (py "翻訳の準備をしています...")).
  destruct (@translate_pages_any _ _ fuel model target_language (List.length pages_text)
              pages_text 0%nat [] (tr ++ [opening]))
    as (o & evs & E & C & _ & O).
  destruct pages_text as [|page pages] eqn:Ep; [congruence|]. rewrite <- Ep in *.
  assert (R : translate_page_by_page fuel pages_text model target_language tr
              = match o with
                | Ret all' =>
                    (Ret (join (nl ++ nl ++ nl) (map page_section (enumerate all'))),
                     tr ++ opening :: evs ++ [Progress 1 (py "翻訳完了！"); ProgressEmpty])
                | Raise e => (Raise e, tr ++ opening :: evs)
                | Timeout => (Timeout, tr ++ opening :: evs)
                end).
  { rewrite Ep. unfold translate_page_by_page, enumerate, bind, emit, ret.
    fold opening. rewrite <- Ep, E.
    destruct o; rewrite <- !app_assoc; reflexivity. }
  destruct o as [all'|e|].
  - exists (Ret (join (nl ++ nl ++ nl) (map page_section (enumerate all')))),
      (opening :: evs ++ [Progress 1 (py "翻訳完了！"); ProgressEmpty]).
    split; [exact R|]. destruct O as (contents & -> & L & P & _).
    simpl app in *.
    split; [|split].
    + simpl. rewrite errors_app, failures_app, C. reflexivity.
    + destruct contents as [|content all'']; [rewrite Ep in L; simpl in L; lia|].
      unfold enumerate. simpl combine. simpl map.
      destruct (map page_section (combine (seq 1 (List.length all'')) all'')) as [|s l].
      * exists content. reflexivity.
      * eexists. unfold join at 1. fold (join (nl ++ nl ++ nl) (s :: l)).
        unfold page_section at 1. simpl fst. simpl snd.
        change (py "--- ページ " ++ str_of_nat (0 + 1) ++ py " ---")
          with (py "--- ページ 1 ---").
        rewrite <- !app_assoc. reflexivity.
    + simpl. rewrite progress_values_app, P. reflexivity.
  - exists (Raise e), (opening :: evs). repeat split; auto.
  - exists Timeout, (opening :: evs). repeat split; auto.
Qed.

(** X5.  The document [translate_page_by_page] returns for a non-empty page
    list is never empty: it starts with the heading of page 1. *)
Theorem translation_starts_with_heading {tok : Tokenizer} {backend : Backend}
  (fuel : nat) (pages_text : list str) (model target_language : str) (tr : trace)
  (translated : str) :
  pages_text <> [] ->
  fst (translate_page_by_page fuel pages_text model target_language tr) = Ret translated ->
  exists rest, translated = py "--- ページ 1 ---" ++ nl ++ nl ++ rest.
Proof.
  intros Hne H.
  destruct (translate_page_by_page_any fuel model target_language tr Hne)
    as (o & evs & E & _ & O).
  rewrite E in H. simpl in H. subst o. tauto.
Qed.

Lemma translation_starts_with_heading_witness :
  exists rest,
    py "--- ページ 1 ---" ++ nl ++ nl ++ py "--- ページ 1 (内容は空でした) ---"
    = py "--- ページ 1 ---" ++ nl ++ nl ++ rest.
Proof.
  apply (@translation_starts_with_heading byte_tokenizer (scripted []) 0 [py ""]
           (py "gpt-4o") (py "日本語") []).
  - discriminate.
  - vm_compute. reflexivity.
Defined.


(** X7.  A run of [translate_page_by_page] over [n >= 1] pages that returns
    has moved the progress bar through [0/n], [1/n], ..., [(n-1)/n], one
    value per page in page order, and then to 1. *)
Theorem translation_progress {tok : Tokenizer} {backend : Backend}
  (fuel : nat) (pages_text : list str) (model target_language : str) (tr : trace)
  (translated : str) :
  pages_text <> [] ->
  fst (translate_page_by_page fuel pages_text model target_language tr) = Ret translated ->
  exists evs,
    snd (translate_page_by_page fuel pages_text model target_language tr) = tr ++ evs
    /\ progress_values evs
       = map (fun i => ratio i (List.length pages_text)) (seq 0 (List.length pages_text))
         ++ [1%Q].
Proof.
  intros Hne H.
  destruct (translate_page_by_page_any fuel model target_language tr Hne)
    as (o & evs & E & _ & O).
  rewrite E in *. simpl in H. subst o. exists evs. tauto.
Qed.

Lemma translation_progress_witness :
  let run := @translate_page_by_page byte_tokenizer
               (scripted [Reply (py "A"); Failure (BackendError (py "rate limit"))])
               0 [py "a"; py " "; py "b"] (py "gpt-4o") (py "日本語") [] in
  exists evs,
    snd run = [] ++ evs
    /\ progress_values evs = map (fun i => ratio i 3) (seq 0 3) ++ [1%Q].
Proof.
  apply (@translation_progress byte_tokenizer
           (scripted [Reply (py "A"); Failure (BackendError (py "rate limit"))])
           0 [py "a"; py " "; py "b"] (py "gpt-4o") (py "日本語") []
           (py "--- ページ 1 ---" ++ nl ++ nl ++ py "A" ++ nl ++ nl ++ nl
            ++ py "--- ページ 2 ---" ++ nl ++ nl ++ py "--- ページ 2 (内容は空でした) ---"
            ++ nl ++ nl ++ nl
            ++ py "--- ページ 3 ---" ++ nl ++ nl
            ++ py "--- エラー：この部分の翻訳に失敗しました ---")).
  - discriminate.
  - vm_compute. reflexivity.
Defined.

(** X8.  A backend request that raises never stops
    [translate_page_by_page].  The function returns a document unless the
    chunker does not return on one of the non-blank pages, or the backend
    answered a request without a text: joining the parts of that page then
    raises [TypeError], outside any handler. *)
Theorem translation_stops_only_with_chunker {tok : Tokenizer} {backend : Backend}
  (fuel : nat) (pages_text : list str) (model target_language : str) (tr : trace) :
  let run := translate_page_by_page fuel pages_text model target_language tr in
  (exists translated, fst run = Ret translated)
  \/ (exists page,
        In page pages_text /\ blank page = false
        /\ forall chunks, split_text_into_chunks model 2000 fuel page <> Ret chunks)
  \/ (exists evs j,
        snd run = tr ++ evs
        /\ In NoContent (responses evs)
        /\ fst run = Raise (not_a_str j)).
Proof.
  intros run. subst run.
  destruct pages_text as [|page pages] eqn:Ep.
  - left. now exists [].
  - rewrite <- Ep.
    assert (Hne : pages_text <> []) by (rewrite Ep; discriminate).
    destruct (translate_page_by_page_any fuel model target_language tr Hne)
      as (o & evs & E & _ & O).
    rewrite E. destruct o as [translated|e|].
    + left. now exists translated.
    + destruct O as [(p & I & B & S)|(N & j & ->)].
      * right. left. exists p. rewrite S. repeat split; auto. discriminate.
      * right. right. exists evs, j. auto.
    + right. left. destruct O as (p & I & B & S). exists p. rewrite S.
      repeat split; auto. discriminate.
Qed.

(** A page of two chunks whose second request is answered without a text:
    the run raises, and the translation of the first chunk is lost. *)
Example translation_stopped_by_missing_text :
  let line := repeat 97%N 1500 in
  let run := @translate_page_by_page byte_tokenizer (scripted [Reply (py "A"); NoContent]) 0
               [line ++ nl ++ line] (py "gpt-4o") (py "日本語") [] in
  fst run = Raise (TypeError (py "sequence item 1: expected str instance, NoneType found"))
  /\ responses (snd run) = [Reply (py "A"); NoContent]
  /\ errors (snd run) = 0%nat.
Proof. split; [|split]; vm_compute; reflexivity. Qed.
(** ** Summarisation, continued *)

Section SummaryMore.

Context {tok : Tokenizer} {backend : Backend}.
Variable fuel : nat.
Variables model custom_prompt : str.

(** The whole run, whatever the chunker and the backend do. *)
Lemma summarize_text_counts (text : str) (tr : trace) :
  exists o evs,
    summarize_text fuel text model custom_prompt tr = (o, tr ++ evs)
    /\ (failures evs <= 1)%nat
    /\ (errors evs <= 1)%nat
    /\ (failures evs = 1%nat -> errors evs = 1%nat)
    /\ (errors evs = 1%nat -> o = Ret (Some []))
    /\ (forall e, o <> Raise e)
    /\ (o = Timeout <->
        truthy text = true /\ split_text_into_chunks model 3000 fuel text = Timeout).
Proof.
  unfold summarize_text. destruct (truthy text) eqn:T.
  2:{ change (negb false) with true. cbv iota.
      exists (Ret (Some [])), []. unfold ret. rewrite app_nil_r.
      repeat split; auto; try discriminate. intros [H _]. discriminate. }
  change (negb true) with false. cbv iota.
  unfold try_except, summarize_body, bind, lift, emit.
  destruct (split_text_into_chunks model 3000 fuel text) as [chunks|e|] eqn:Es;
    cbv beta iota.
  - unfold enumerate.
    set (tr1 := (tr ++ [Info (parts_notice (List.length chunks))])
                  ++ [ProgressBar 0 (py "段階的要約を開始...")]).
    destruct (@map_phase_run _ model (List.length chunks) chunks 0%nat [] tr1)
      as [(contents & mevs & E & _ & _ & C & O)
         |(e & j & contents & mevs & E & _ & _ & _ & C & O)];
      rewrite E.
    + simpl app.
      destruct (str_join_cases nl contents) as [(summaries & _ & J)|(i & _ & _ & J)];
        rewrite J.
      * unfold create.
        destruct (chat_completions_create _ _) as [reply|e|].
        -- eexists. eexists. split.
           { unfold ret, tr1. simpl. rewrite <- !app_assoc. reflexivity. }
           simpl. rewrite !errors_app, !failures_app, C, O. simpl.
           repeat split; auto; try discriminate; try lia.
           intros [_ H]; discriminate.
        -- eexists. eexists. split.
           { unfold ret, tr1. simpl. rewrite <- !app_assoc. reflexivity. }
           simpl. rewrite !errors_app, !failures_app, C, O. simpl.
           repeat split; auto; try discriminate; try lia.
           intros [_ H]; discriminate.
        -- eexists. eexists. split.
           { unfold ret, tr1. simpl. rewrite <- !app_assoc. reflexivity. }
           simpl. rewrite !errors_app, !failures_app, C, O. simpl.
           repeat split; auto; try discriminate; try lia.
           intros [_ H]; discriminate.
      * eexists. eexists. split.
        { unfold ret, tr1. rewrite <- !app_assoc. reflexivity. }
        simpl. rewrite !errors_app, !failures_app, C, O. simpl.
        repeat split; auto; try discriminate; try lia.
        intros [_ H]; discriminate.
    + eexists. eexists. split.
      { unfold ret, tr1. rewrite <- !app_assoc. reflexivity. }
      simpl. rewrite !errors_app, !failures_app, C, O. simpl.
      repeat split; auto; try discriminate; try lia.
      intros [_ H]; discriminate.
  - exists (Ret (Some [])), [Error (summary_error e)]. unfold ret. simpl.
    repeat split; auto; try discriminate; try lia.
    intros [_ H]; discriminate.
  - exists Timeout, []. rewrite app_nil_r. simpl.
    repeat split; auto; try discriminate; try lia.
Qed.

End SummaryMore.

(** X9.  [summarize_text] never raises: every exception of the backend or of
    the chunker ends in the handler.  It fails to return only when the text
    is not empty and the chunker does not end on it. *)
Theorem summarize_text_never_raises {tok : Tokenizer} {backend : Backend}
  (fuel : nat) (text model custom_prompt : str) (tr : trace) :
  (forall e, fst (summarize_text fuel text model custom_prompt tr) <> Raise e)
  /\ (fst (summarize_text fuel text model custom_prompt tr) = Timeout <->
      truthy text = true /\ split_text_into_chunks model 3000 fuel text = Timeout).
Proof.
  destruct (@summarize_text_counts _ _ fuel model custom_prompt text tr)
    as (o & evs & E & _ & _ & _ & _ & R & T).
  rewrite E. simpl. auto.
Qed.


(** X11.  A non-empty text that the chunker keeps in one chunk at the
    summarisation budget of 3000 tokens still goes through both phases: the
    chunk is the whole text followed by a newline, and when the backend
    answers the map request for it with a text, [summarize_text] issues
    exactly two requests, that map request and the reduce request built from
    the reply to it. *)
Theorem short_text_two_requests {tok : Tokenizer} {backend : Backend}
  (fuel : nat) (text model custom_prompt : str) (tr : trace) (chunk reply : str) :
  truthy text = true ->
  split_text_into_chunks model 3000 fuel text = Ret [chunk] ->
  chat_completions_create (requests tr) (part_request model chunk) = Reply reply ->
  chunk = text ++ nl
  /\ requests (snd (summarize_text fuel text model custom_prompt tr))
     = requests tr
       ++ [part_request model (text ++ nl); final_request model custom_prompt reply].
Proof.
  intros T Es A.
  assert (Ec : chunk = text ++ nl).
  { apply split_text_into_chunks_concat in Es. simpl in Es. now rewrite app_nil_r in Es. }
  split; [exact Ec|]. subst chunk.
  unfold summarize_text. rewrite T. change (negb true) with false. cbv iota.
  unfold try_except, summarize_body, bind, lift, emit. rewrite Es. cbv beta iota.
  unfold enumerate. simpl combine.
  assert (R1 : forall notice opening,
             requests ((tr ++ [Info notice]) ++ [ProgressBar 0 opening]) = requests tr).
  { intros. rewrite !requests_app. simpl. now rewrite !app_nil_r. }
  rewrite for_each_cons, summarize_chunk_run. cbv zeta. rewrite R1, A.
  simpl for_each. unfold ret, create. simpl app.
  pose proof (str_join_texts nl [reply]) as J. simpl in J. rewrite J.
  rewrite !requests_app. simpl. rewrite ?app_nil_r, <- ?app_assoc.
  match goal with
  | |- context [chat_completions_create ?h ?q] =>
      destruct (chat_completions_create h q) as [final|e|]
  end; simpl snd; rewrite !requests_app; simpl; now rewrite ?app_nil_r.
Qed.

Lemma short_text_two_requests_witness :
  py "Hello world" ++ nl = py "Hello world" ++ nl
  /\ requests (snd (@summarize_text byte_tokenizer (scripted [Reply (py "S")]) 0
                      (py "Hello world") (py "gpt-4o") (py "要点を三行で") []))
     = requests []
       ++ [part_request (py "gpt-4o") (py "Hello world" ++ nl);
           final_request (py "gpt-4o") (py "要点を三行で") (py "S")].
Proof.
  apply (@short_text_two_requests byte_tokenizer (scripted [Reply (py "S")]) 0
           (py "Hello world") (py "gpt-4o") (py "要点を三行で") [] (py "Hello world" ++ nl)
           (py "S"));
    vm_compute; reflexivity.
Defined.

(** A text of 3000 tokens in two lines does not stay in one chunk: with its
    newlines it counts 3001, and the run issues three requests. *)
Example budget_counts_the_newline :
  let text := repeat 97%N 2998 ++ nl ++ py "b" in
  let run := @summarize_text byte_tokenizer (scripted []) 0 text (py "gpt-4o")
               (py "要点を三行で") [] in
  @count byte_tokenizer (py "gpt-4o") text = 3000
  /\ List.length (requests (snd run)) = 3%nat.
Proof. split; vm_compute; reflexivity. Qed.
(** ** Text extraction *)

Lemma get_texts_fails (before : list (outcome str)) (texts : list str) (e : exn)
  (after : list (outcome str)) :
  Forall2 (fun page text => page = Ret text) before texts ->
  get_texts (before ++ Raise e :: after) = Raise e.
Proof.
  induction 1 as [|page text before texts -> _ IH]; simpl; [reflexivity|].
  now rewrite IH.
Qed.

Lemma get_texts_succeeds (doc : list (outcome str)) (texts : list str) :
  Forall2 (fun page text => page = Ret text) doc texts ->
  get_texts doc = Ret texts.
Proof.
  induction 1 as [|page text doc texts -> _ IH]; simpl; [reflexivity|].
  now rewrite IH.
Qed.

(** X12.  Text extraction is all or nothing: when the text of one page cannot
    be read, [extract_text_from_pdf_by_page] reports that error and returns
    the empty list, although the pages before it were read; when every page
    is read, it returns their texts in page order and reports nothing. *)
Theorem extraction_all_or_nothing (doc : list (outcome str)) (tr : trace) :
  (forall before texts e after,
      doc = before ++ Raise e :: after ->
      Forall2 (fun page text => page = Ret text) before texts ->
      extract_text_from_pdf_by_page (Ret doc) tr
      = (Ret [], tr ++ [Error (extraction_error e)]))
  /\ (forall texts,
        Forall2 (fun page text => page = Ret text) doc texts ->
        extract_text_from_pdf_by_page (Ret doc) tr = (Ret texts, tr)).
Proof.
  split.
  - intros before texts e after -> H.
    unfold extract_text_from_pdf_by_page, try_except, lift. simpl obind.
    now rewrite (get_texts_fails e after H).
  - intros texts H.
    unfold extract_text_from_pdf_by_page, try_except, lift. simpl obind.
    now rewrite (get_texts_succeeds H).
Qed.

Lemma extraction_all_or_nothing_witness :
  extract_text_from_pdf_by_page
    (Ret [Ret (py "page one"); Raise (ValueError (py "bad page")); Ret (py "page three")]) []
  = (Ret [], [] ++ [Error (extraction_error (ValueError (py "bad page")))])
  /\ extract_text_from_pdf_by_page (Ret [Ret (py "page one"); Ret (py "")]) []
     = (Ret [py "page one"; py ""], []).
Proof.
  split.
  - destruct (extraction_all_or_nothing
                [Ret (py "page one"); Raise (ValueError (py "bad page")); Ret (py "page three")]
                []) as [F _].
    apply (F [Ret (py "page one")] [py "page one"] (ValueError (py "bad page"))
             [Ret (py "page three")]); [reflexivity|].
    constructor; [reflexivity|constructor].
  - destruct (extraction_all_or_nothing [Ret (py "page one"); Ret (py "")] []) as [_ S].
    apply S. repeat constructor.
Defined.

(** ** The client and the session state *)

Lemma str_eqb_eq (a b : str) : str_eqb a b = true <-> a = b.
Proof.
  revert b; induction a as [|x a IH]; intros [|y b]; simpl; try (split; congruence).
  rewrite andb_true_iff, N.eqb_eq, IH. split.
  - intros [-> ->]. reflexivity.
  - intros H. inversion H. auto.
Qed.

Lemma str_eqb_refl (a : str) : str_eqb a a = true.
Proof. now apply str_eqb_eq. Qed.

(** X13.  From a session state in which the stored client comes with the key
    it was built from, [get_openai_client] never reads a missing attribute,
    leaves the session state in such a state again, and a client it returns
    is one built from the key it was asked for. *)
Theorem get_openai_client_consistent {lib : OpenAILibrary} (key : str)
  (s : session_state) (log : list client_event) :
  session_consistent s ->
  let '(result, (s', log')) := get_openai_client key (s, log) in
  session_consistent s'
  /\ (result = Found None \/ result = Found (Some (OpenAI key))).
Proof.
  intros Hs.
  assert (Hnew : forall s0 : session_state,
             session_consistent (set_api_key (set_client s0 (OpenAI key)) key))
    by reflexivity.
  unfold get_openai_client, client_is_stale.
  pose proof Hs as Hs'. unfold session_consistent in Hs'.
  destruct (openai_client s) as [[stored]|] eqn:Ec.
  - rewrite Hs'. destruct (str_eqb stored key) eqn:Ek; simpl negb; cbv iota.
    + apply str_eqb_eq in Ek. subst stored. split; [exact Hs|now right].
    + destruct (init_error key) as [e|]; [split; [exact Hs|now left]|].
      destruct (models_list (listed log) (OpenAI key)) as [e|]; split;
        try apply Hnew; auto.
  - destruct (init_error key) as [e|]; [split; [exact Hs|now left]|].
    destruct (models_list (listed log) (OpenAI key)) as [e|]; split;
      try apply Hnew; auto.
Qed.

Lemma get_openai_client_consistent_witness :
  let '(result, (s', log')) :=
    @get_openai_client flaky_library (py "sk-test") (fresh_session, []) in
  session_consistent s'
  /\ (result = Found None \/ result = Found (Some (OpenAI (py "sk-test")))).
Proof.
  apply (@get_openai_client_consistent flaky_library (py "sk-test") fresh_session []).
  exact I.
Defined.

(** X14.  When the session state holds a client together with the key asked
    for, [get_openai_client] returns that client as it is: nothing is built,
    [models.list()] is not called again, and the state does not change. *)
Theorem get_openai_client_cached {lib : OpenAILibrary} (key : str)
  (s : session_state) (log : list client_event) (c : client) :
  openai_client s = Some c ->
  api_key s = Some key ->
  get_openai_client key (s, log) = (Found (Some c), (s, log)).
Proof.
  intros Hc Hk. unfold get_openai_client, client_is_stale.
  rewrite Hc, Hk, str_eqb_refl. reflexivity.
Qed.

Lemma get_openai_client_cached_witness :
  let s := set_api_key (set_client fresh_session (OpenAI (py "sk-test"))) (py "sk-test") in
  @get_openai_client flaky_library (py "sk-test") (s, [])
  = (Found (Some (OpenAI (py "sk-test"))), (s, [])).
Proof.
  intros s.
  apply (@get_openai_client_cached flaky_library (py "sk-test") s [] (OpenAI (py "sk-test")));
    reflexivity.
Defined.

(** X15.  The client and the key are stored before the key is checked.  When
    a new client is built and [models.list()] then raises,
    [get_openai_client] reports the error and returns [None]; but the next
    call with the same key finds the stored client and returns it, without
    checking it again and without reporting anything. *)
Theorem get_openai_client_forgets_failure {lib : OpenAILibrary} (key : str)
  (s : session_state) (log : list client_event) (e : exn) :
  client_is_stale s key = Found true ->
  init_error key = None ->
  models_list (listed log) (OpenAI key) = Some e ->
  exists s',
    get_openai_client key (s, log)
    = (Found None, (s', log ++ [Listed (OpenAI key) (Some e); Reported (client_error e)]))
    /\ forall log', get_openai_client key (s', log')
                    = (Found (Some (OpenAI key)), (s', log')).
Proof.
  intros Hstale Hinit Hlist.
  exists (set_api_key (set_client s (OpenAI key)) key). split.
  - unfold get_openai_client. now rewrite Hstale, Hinit, Hlist.
  - intros log'. now apply get_openai_client_cached.
Qed.

Lemma get_openai_client_forgets_failure_witness :
  exists s',
    @get_openai_client flaky_library (py "sk-wrong") (fresh_session, [])
    = (Found None,
       (s', [] ++ [Listed (OpenAI (py "sk-wrong")) (Some (BackendError (py "401")));
                   Reported (client_error (BackendError (py "401")))]))
    /\ forall log', @get_openai_client flaky_library (py "sk-wrong") (s', log')
                    = (Found (Some (OpenAI (py "sk-wrong"))), (s', log')).
Proof.
  apply (@get_openai_client_forgets_failure flaky_library (py "sk-wrong") fresh_session []
           (BackendError (py "401"))); reflexivity.
Defined.

(** ** The run *)

Lemma contains_labels :
  contains (py "翻訳") (py "翻訳と要約") = true
  /\ contains (py "要約") (py "翻訳と要約") = true
  /\ contains (py "翻訳") (py "翻訳のみ") = true
  /\ contains (py "要約") (py "翻訳のみ") = false
  /\ contains (py "翻訳") (py "要約のみ") = false
  /\ contains (py "要約") (py "要約のみ") = true.
Proof. repeat split; vm_compute; reflexivity. Qed.

Section RunFacts.

Context {tok : Tokenizer} {backend : Backend}.
Variable fuel : nat.

(** What the three choices of the radio button run. *)
Lemma run_pipeline_translate_only (w : widgets) (pages : list str) (tr : trace) :
  chosen_process w = TranslateOnly ->
  run_pipeline fuel (read_sidebar w) pages tr
  = (translated_text <-
       translate_page_by_page fuel pages (chosen_model w) (chosen_language w) ;;
     ret (Found (translated_text, Some []))) tr.
Proof.
  intros Hp. destruct contains_labels as (_ & _ & T & S & _ & _).
  unfold run_pipeline, read_sidebar. rewrite Hp. simpl process_option.
  simpl process_label. simpl target_language. rewrite T, S. simpl with_variable.
  unfold bind, ret.
  destruct (translate_page_by_page fuel pages _ _ tr) as [[t|e|] tr']; simpl;
    rewrite ?S; reflexivity.
Qed.

Lemma run_pipeline_summarize_only (w : widgets) (pages : list str) (tr : trace) :
  chosen_process w = SummarizeOnly ->
  run_pipeline fuel (read_sidebar w) pages tr
  = (summary_text <-
       summarize_text fuel (join nl pages) (chosen_model w) (typed_prompt w) ;;
     ret (Found ([], summary_text))) tr.
Proof.
  intros Hp. destruct contains_labels as (_ & _ & _ & _ & T & S).
  unfold run_pipeline, read_sidebar. rewrite Hp. simpl process_option.
  simpl process_label. simpl summarize_source. simpl custom_prompt. rewrite T.
  unfold bind at 1. unfold ret at 1. cbv iota beta. rewrite S.
  simpl with_variable.
  replace (str_eqb (py "要約のみ") (py "翻訳と要約")) with false by (vm_compute; reflexivity).
  replace (str_eqb (py "元のテキスト") (py "翻訳後のテキスト")) with false
    by (vm_compute; reflexivity).
  reflexivity.
Qed.

Lemma run_pipeline_both (w : widgets) (pages : list str) (tr : trace) :
  chosen_process w = TranslateAndSummarize ->
  run_pipeline fuel (read_sidebar w) pages tr
  = (translated_text <-
       translate_page_by_page fuel pages (chosen_model w) (chosen_language w) ;;
     summary_text <-
       summarize_text fuel
         (match chosen_source w with
          | TranslatedText => if truthy translated_text then translated_text
                              else join nl pages
          | OriginalText => join nl pages
          end)
         (chosen_model w) (typed_prompt w) ;;
     ret (Found (translated_text, summary_text))) tr.
Proof.
  intros Hp. destruct contains_labels as (T & S & _ & _ & _ & _).
  unfold run_pipeline, read_sidebar. rewrite Hp. simpl process_option.
  simpl process_label. simpl target_language. simpl summarize_source.
  simpl custom_prompt. rewrite T, S. simpl with_variable.
  unfold bind, ret.
  destruct (translate_page_by_page fuel pages _ _ tr) as [[t|e|] tr']; try reflexivity.
  destruct (chosen_source w); simpl source_label.
  - replace (str_eqb (py "元のテキスト") (py "翻訳後のテキスト")) with false
      by (vm_compute; reflexivity).
    reflexivity.
  - rewrite str_eqb_refl. reflexivity.
Qed.

End RunFacts.

(** X16.  Whatever is chosen in the sidebar, the run reads no variable the
    sidebar code has left unbound: the target language is read only when the
    label of the chosen process contains the word for translation, the
    source and the prompt of the summary only when it contains the word for
    summary, and these are the conditions under which they are bound. *)
Theorem run_pipeline_variables_bound {tok : Tokenizer} {backend : Backend}
  (fuel : nat) (w : widgets) (pages : list str) (tr : trace) (name : str) :
  fst (run_pipeline fuel (read_sidebar w) pages tr) <> Ret (NameError name)
  /\ fst (run_pipeline fuel (read_sidebar w) pages tr) <> Ret (AttributeError name).
Proof.
  destruct (chosen_process w) eqn:Hp.
  - rewrite (run_pipeline_both fuel w pages tr Hp). unfold bind, ret.
    destruct (translate_page_by_page fuel pages _ _ tr) as [[t|e|] tr'];
      try (split; discriminate).
    destruct (summarize_text fuel _ _ _ tr') as [[s|e|] tr'']; split; discriminate.
  - rewrite (run_pipeline_translate_only fuel w pages tr Hp). unfold bind, ret.
    destruct (translate_page_by_page fuel pages _ _ tr) as [[t|e|] tr'];
      split; discriminate.
  - rewrite (run_pipeline_summarize_only fuel w pages tr Hp). unfold bind, ret.
    destruct (summarize_text fuel _ _ _ tr) as [[s|e|] tr']; split; discriminate.
Qed.

(** X17.  With "translate and summarise" and the translation chosen as the
    source of the summary, the text summarised for a non-empty document is
    always the translated document: it is never empty, so the fall-back on
    the original text is not taken. *)
Theorem summary_of_translation {tok : Tokenizer} {backend : Backend}
  (fuel : nat) (w : widgets) (pages : list str) (tr : trace) :
  chosen_process w = TranslateAndSummarize ->
  chosen_source w = TranslatedText ->
  pages <> [] ->
  run_pipeline fuel (read_sidebar w) pages tr
  = (translated_text <-
       translate_page_by_page fuel pages (chosen_model w) (chosen_language w) ;;
     summary_text <-
       summarize_text fuel translated_text (chosen_model w) (typed_prompt w) ;;
     ret (Found (translated_text, summary_text))) tr.
Proof.
  intros Hp Hs Hne. rewrite (run_pipeline_both fuel w pages tr Hp), Hs.
  unfold bind.
  destruct (translate_page_by_page_any fuel (chosen_model w) (chosen_language w) tr Hne)
    as (o & evs & E & _ & O).
  rewrite E. destruct o as [t|e|]; try reflexivity.
  destruct O as [[rest ->] _]. reflexivity.
Qed.

Lemma summary_of_translation_witness :
  let w := {| chosen_model := py "gpt-4o"; chosen_process := TranslateAndSummarize;
              chosen_language := py "日本語"; chosen_source := TranslatedText;
              typed_prompt := py "要点を三行で" |} in
  @run_pipeline byte_tokenizer (scripted [Reply (py "A"); Reply (py "S1"); Reply (py "S")]) 0
    (read_sidebar w) [py "a"] []
  = (translated_text <-
       @translate_page_by_page byte_tokenizer
         (scripted [Reply (py "A"); Reply (py "S1"); Reply (py "S")]) 0 [py "a"]
         (chosen_model w) (chosen_language w) ;;
     summary_text <-
       @summarize_text byte_tokenizer
         (scripted [Reply (py "A"); Reply (py "S1"); Reply (py "S")]) 0 translated_text
         (chosen_model w) (typed_prompt w) ;;
     ret (Found (translated_text, summary_text))) [].
Proof.
  intros w.
  apply (@summary_of_translation byte_tokenizer
           (scripted [Reply (py "A"); Reply (py "S1"); Reply (py "S")]) 0 w [py "a"] []);
    [reflexivity|reflexivity|discriminate].
Defined.

(** The same run, computed: the summary is the reply to the reduce request,
    the third request of the run. *)
Example translate_and_summarize_run :
  fst (@run_pipeline byte_tokenizer (scripted [Reply (py "A"); Reply (py "S1"); Reply (py "S")])
         0
         (read_sidebar {| chosen_model := py "gpt-4o"; chosen_process := TranslateAndSummarize;
                          chosen_language := py "日本語"; chosen_source := TranslatedText;
                          typed_prompt := py "要点を三行で" |})
         [py "a"] [])
  = Ret (Found (py "--- ページ 1 ---" ++ nl ++ nl ++ py "A", Some (py "S"))).
Proof. vm_compute. reflexivity. Qed.

(** X18.  The process chosen decides what runs.  "Translate only" runs the
    translation alone and leaves the summary empty: no summarisation request
    is issued.  "Summarise only" translates nothing, leaves the translation
    empty, and summarises the pages joined by single newlines. *)
Theorem choice_decides_what_runs {tok : Tokenizer} {backend : Backend}
  (fuel : nat) (w : widgets) (pages : list str) (tr : trace) :
  (chosen_process w = TranslateOnly ->
   run_pipeline fuel (read_sidebar w) pages tr
   = (translated_text <-
        translate_page_by_page fuel pages (chosen_model w) (chosen_language w) ;;
      ret (Found (translated_text, Some []))) tr)
  /\ (chosen_process w = SummarizeOnly ->
      run_pipeline fuel (read_sidebar w) pages tr
      = (summary_text <-
           summarize_text fuel (join nl pages) (chosen_model w) (typed_prompt w) ;;
         ret (Found ([], summary_text))) tr).
Proof.
  split; intros Hp;
    [now apply run_pipeline_translate_only|now apply run_pipeline_summarize_only].
Qed.

Lemma choice_decides_what_runs_witness :
  let backend := scripted [Reply (py "S1"); Reply (py "S")] in
  let w := {| chosen_model := py "gpt-4o"; chosen_process := SummarizeOnly;
              chosen_language := py "日本語"; chosen_source := TranslatedText;
              typed_prompt := py "要点を三行で" |} in
  @run_pipeline byte_tokenizer backend 0 (read_sidebar w) [py "a"; py "b"] []
  = (summary_text <-
       @summarize_text byte_tokenizer backend 0 (join nl [py "a"; py "b"])
         (chosen_model w) (typed_prompt w) ;;
     ret (Found ([], summary_text))) [].
Proof.
  intros backend w.
  destruct (@choice_decides_what_runs byte_tokenizer backend 0 w [py "a"; py "b"] [])
    as [_ S].
  apply S. reflexivity.
Defined.

(** ** The result page *)

(** X19.  The result page never looks for a tab that is not there.  When
    the translation is empty or differs from the original text, every widget
    lands in the tab that names it: the summary, when there is one, under
    the summary tab; the translation, when there is one, under the
    translation tab; the original text under the last tab.  When the
    translation is not empty and equals the original text, the text area of
    the original is a second element just like that of the translation, and
    drawing it is refused. *)
Theorem show_tabs_matches_titles (r : results) :
  show_tabs r
  = if truthy (res_translation r) && str_eqb (res_translation r) (res_original r)
    then DuplicateElementId
    else Drawn ((match res_summary r with
                 | Some text => if truthy text then [(py "要約", Markdown text)] else []
                 | None => []
                 end)
                ++ (if truthy (res_translation r)
                    then [(py "翻訳結果", TextArea (py " ") (res_translation r))] else [])
                ++ [(py "元のテキスト", TextArea (py " ") (res_original r))]).
Proof.
  assert (L : str_eqb (py " ") (py " ") = true) by reflexivity.
  unfold show_tabs, tab_titles, draw_in_tab, shown_summary.
  destruct (res_summary r) as [text|]; [destruct (truthy text)|];
    destruct (truthy (res_translation r)); simpl; rewrite ?L; simpl;
    try reflexivity;
    destruct (str_eqb (res_translation r) (res_original r)); reflexivity.
Qed.

(** A page that the backend gives back as it is headed: the translation is
    the original text, and the result page stops at the second text area. *)
Example echoed_page_is_refused :
  let page := py "--- ページ 1 ---" ++ nl ++ nl ++ py "A" in
  let run := @translate_page_by_page byte_tokenizer (scripted [Reply (py "A")]) 0 [page]
               (py "gpt-4o") (py "日本語") [] in
  fst run = Ret page
  /\ show_tabs (store_results (py "paper.pdf") [page] page (Some [])) = DuplicateElementId.
Proof. split; vm_compute; reflexivity. Qed.

(** X20.  After a "translate only" run over a non-empty document, the result
    page has exactly two tabs, the translation and the original text, and
    the download holds the title and the translation section and no overview
    section. *)
Theorem translate_only_result_page {tok : Tokenizer} {backend : Backend}
  (fuel : nat) (w : widgets) (pages : list str) (tr : trace) (name : str)
  (translated_text : str) (summary_text : option str) :
  chosen_process w = TranslateOnly ->
  pages <> [] ->
  fst (run_pipeline fuel (read_sidebar w) pages tr)
  = Ret (Found (translated_text, summary_text)) ->
  let r := store_results name pages translated_text summary_text in
  tab_titles r = [py "翻訳結果"; py "元のテキスト"]
  /\ markdown_output r
     = py "# 📄 「" ++ name ++ py "」の処理結果" ++ nl ++ nl
       ++ py "## 全文翻訳" ++ nl ++ nl ++ translated_text ++ nl ++ nl.
Proof.
  intros Hp Hne H r.
  rewrite (run_pipeline_translate_only fuel w pages tr Hp) in H.
  unfold bind, ret in H.
  destruct (translate_page_by_page_any fuel (chosen_model w) (chosen_language w) tr Hne)
    as (o & evs & E & _ & O).
  rewrite E in H. destruct o as [t|e|]; simpl in H; try discriminate.
  inversion H; subst. destruct O as [[rest ->] _].
  unfold r, store_results, tab_titles, markdown_output, shown_summary. simpl res_summary.
  simpl res_translation. simpl res_filename. cbv beta iota.
  change (truthy []) with false.
  replace (truthy (py "--- ページ 1 ---" ++ nl ++ nl ++ rest)) with true by reflexivity.
  cbv iota. split; [reflexivity|]. now rewrite <- !app_assoc.
Qed.

Lemma translate_only_result_page_witness :
  let translated := py "--- ページ 1 ---" ++ nl ++ nl ++ py "A" in
  let r := store_results (py "paper.pdf") [py "a"] translated (Some []) in
  tab_titles r = [py "翻訳結果"; py "元のテキスト"]
  /\ markdown_output r
     = py "# 📄 「" ++ py "paper.pdf" ++ py "」の処理結果" ++ nl ++ nl
       ++ py "## 全文翻訳" ++ nl ++ nl ++ translated ++ nl ++ nl.
Proof.
  intros translated.
  apply (@translate_only_result_page byte_tokenizer (scripted [Reply (py "A")]) 0
           {| chosen_model := py "gpt-4o"; chosen_process := TranslateOnly;
              chosen_language := py "日本語"; chosen_source := OriginalText;
              typed_prompt := py "" |}
           [py "a"] [] (py "paper.pdf") translated (Some [])).
  - reflexivity.
  - discriminate.
  - vm_compute. reflexivity.
Defined.

(** ** Pages and lines *)

Lemma split_lines_app (a b : str) :
  split_lines (a ++ newline :: b) = split_lines a ++ split_lines b.
Proof.
  induction a as [|c a IH]; simpl.
  - reflexivity.
  - destruct (c =? newline)%N.
    + now rewrite IH.
    + rewrite IH. destruct (split_lines a) as [|l ls] eqn:E.
      * now destruct (split_lines_nonempty a).
      * reflexivity.
Qed.

(** X21.  When only a summary is asked for, the pages are joined by single
    newlines before they reach the chunker, which cuts at newlines again:
    the lines it sees are the lines of the pages, page after page, and the
    page boundaries are ordinary line ends. *)
Theorem joined_pages_lines (pages : list str) :
  pages <> [] ->
  split_lines (join nl pages) = List.concat (map split_lines pages).
Proof.
  induction pages as [|page pages IH]; [congruence|]. intros _.
  destruct pages as [|page' pages'].
  - simpl. now rewrite app_nil_r.
  - change (join nl (page :: page' :: pages'))
      with (page ++ newline :: join nl (page' :: pages')).
    rewrite split_lines_app, IH by discriminate. reflexivity.
Qed.

Lemma joined_pages_lines_witness :
  split_lines (join nl [py "a" ++ nl ++ py "b"; py ""; py "c"])
  = List.concat (map split_lines [py "a" ++ nl ++ py "b"; py ""; py "c"]).
Proof.
  apply (@joined_pages_lines [py "a" ++ nl ++ py "b"; py ""; py "c"]). discriminate.
Defined.
